(** * circuits/views.py: the request handlers of the circuits application

    A shallow embedding of [netbox/circuits/views.py].  A handler is a
    computation over a [World]: the entity store, the trace of the accesses
    made to it, and the queue of flash messages.  [get_object_or_404] raises
    [Http404], which the framework turns into the response. *)

From Stdlib Require Import ZArith List String Bool Lia.
Import ListNotations.

Local Open Scope string_scope.
Local Open Scope list_scope.
Local Open Scope Z_scope.

(** ** Rows of the entity store (circuits.models, extras.models) *)

Record Provider := mkProvider {
  provider_pk : Z;
  provider_slug : string;
  provider_name : string
}.

Record Circuit := mkCircuit {
  circuit_pk : Z;
  circuit_cid : string;
  circuit_provider : Z
}.

(** An unsaved instance has no primary key; [form.save(commit=False)] gives
    one whose circuit is whatever the form put there. *)
Record Termination := mkTermination {
  termination_pk : option Z;
  termination_circuit : option Z;
  termination_site : Z
}.

Record Graph := mkGraph {
  graph_pk : Z;
  graph_type : Z
}.

Record Store := mkStore {
  providers : list Provider;
  circuits : list Circuit;
  terminations : list Termination;
  graphs : list Graph;
  termination_seq : Z
}.

Inductive Table := TProvider | TCircuit | TTermination | TGraph.

Inductive Event :=
| Select (t : Table)
| Insert (t : Table)
| Update (t : Table)
| Delete (t : Table)
| FormClean (form_class : string).

Record World := mkWorld {
  store : Store;
  trace : list Event;
  messages : list string
}.

Definition row_count (s : Store) : nat :=
  (List.length (providers s) + List.length (circuits s)
   + List.length (terminations s) + List.length (graphs s))%nat.

(** ** Requests and responses *)

Definition QueryDict := list (string * string).

Fixpoint contains_key (k : string) (d : QueryDict) : bool :=
  match d with
  | [] => false
  | (k', _) :: d' => String.eqb k k' || contains_key k d'
  end.

Record Request := mkRequest {
  method : string;
  POST : QueryDict;
  user : string;
  path : string
}.

Definition ErrorDict := list (string * string).

(** The fields of a Termination a form can carry. *)
Record Cleaned := mkCleaned {
  cleaned_circuit : option Z;
  cleaned_site : Z
}.

(** A Django form once cleaned: [errors] is the outcome of [full_clean], and
    [instance] the model instance a ModelForm builds from the posted data. *)
Record Form := mkForm {
  form_class : string;
  is_bound : bool;
  data : QueryDict;
  errors : ErrorDict;
  instance : Termination
}.

Record Url := mkUrl {
  viewname : string;
  url_pk : Z
}.

Inductive Value :=
| VProvider (p : Provider)
| VCircuit (c : Circuit)
| VCircuits (cs : list Circuit)
| VTermination (t : Termination)
| VBool (b : bool)
| VStr (s : string)
| VForm (f : Form)
| VUrl (u : Url).

Definition Context := list (string * Value).

Fixpoint context_get (k : string) (c : Context) : option Value :=
  match c with
  | [] => None
  | (k', v) :: c' => if String.eqb k k' then Some v else context_get k c'
  end.

Inductive Response :=
| Render (template_name : string) (context : Context)
| Redirect (to : Url)
| Http404
| ServerError (exception : string)
| LoginRedirect (next : string)
| Forbidden.

(** ** The handler monad: state passing with early exit *)

Inductive Outcome (A : Type) :=
| Return (a : A)
| Raise (r : Response).
Arguments Return {A} a.
Arguments Raise {A} r.

Definition M (A : Type) := World -> Outcome A * World.

Definition ret {A} (a : A) : M A := fun w => (Return a, w).

Definition raise {A} (r : Response) : M A := fun w => (Raise r, w).

Definition bind {A B} (m : M A) (k : A -> M B) : M B :=
  fun w =>
    match m w with
    | (Return a, w') => k a w'
    | (Raise r, w') => (Raise r, w')
    end.

Notation "x <- m ;; k" := (bind m (fun x => k))
  (at level 61, m at next level, right associativity).
Notation "m ;;; k" := (bind m (fun _ => k))
  (at level 61, right associativity).

Definition record (e : Event) : M unit :=
  fun w => (Return tt, mkWorld (store w) (trace w ++ [e]) (messages w)).

Definition get_store : M Store := fun w => (Return (store w), w).

Definition put_store (s : Store) : M unit :=
  fun w => (Return tt, mkWorld s (trace w) (messages w)).

(** What the framework answers for a handler run in world [w]. *)
Definition respond (m : M Response) (w : World) : Response * World :=
  match m w with
  | (Return r, w') => (r, w')
  | (Raise r, w') => (r, w')
  end.

(** ** Store queries *)

Definition option_Z_eqb (a b : option Z) : bool :=
  match a, b with
  | Some x, Some y => x =? y
  | None, None => true
  | _, _ => false
  end.

Definition find_provider (slug : string) (s : Store) : option Provider :=
  find (fun p => String.eqb (provider_slug p) slug) (providers s).

Definition find_circuit (pk : Z) (s : Store) : option Circuit :=
  find (fun c => circuit_pk c =? pk) (circuits s).

Definition find_termination (pk : Z) (s : Store) : option Termination :=
  find (fun t => option_Z_eqb (termination_pk t) (Some pk)) (terminations s).

(** [get_object_or_404(Model, ...)]: one SELECT, [Http404] when no row
    matches. *)
Definition get_object_or_404 {A} (t : Table) (lookup : Store -> option A)
  : M A :=
  record (Select t) ;;;
  s <- get_store ;;
  match lookup s with
  | Some a => ret a
  | None => raise Http404
  end.

(** [Circuit.objects.filter(provider=provider)], evaluated by the template. *)
Definition Circuit_filter_provider (p : Provider) : M (list Circuit) :=
  record (Select TCircuit) ;;;
  s <- get_store ;;
  ret (filter (fun c => circuit_provider c =? provider_pk p) (circuits s)).

(** [Graph.objects.filter(type=t).exists()]. *)
Definition Graph_filter_type_exists (t : Z) : M bool :=
  record (Select TGraph) ;;;
  s <- get_store ;;
  ret (existsb (fun g => graph_type g =? t) (graphs s)).

(** The forward relation [termination.circuit]: the row the foreign key
    names, [DoesNotExist] when it dangles. *)
Definition Termination_circuit (t : Termination) : M Circuit :=
  record (Select TCircuit) ;;;
  s <- get_store ;;
  match termination_circuit t with
  | Some k =>
    match find_circuit k s with
    | Some c => ret c
    | None => raise (ServerError "DoesNotExist")
    end
  | None => raise (ServerError "DoesNotExist")
  end.

(** [instance.save()]: INSERT under a fresh key when the instance has none,
    UPDATE of the row with its key otherwise. *)
Definition Termination_save (t : Termination) : M Termination :=
  s <- get_store ;;
  match termination_pk t with
  | None =>
    let t' := mkTermination (Some (termination_seq s))
                            (termination_circuit t) (termination_site t) in
    record (Insert TTermination) ;;;
    put_store (mkStore (providers s) (circuits s) (terminations s ++ [t'])
                       (graphs s) (termination_seq s + 1)) ;;;
    ret t'
  | Some k =>
    record (Update TTermination) ;;;
    put_store (mkStore (providers s) (circuits s)
                 (map (fun r => if option_Z_eqb (termination_pk r) (Some k)
                                then t else r) (terminations s))
                 (graphs s) (termination_seq s)) ;;;
    ret t
  end.

(** The instance once deleted: Django's collector ends by setting the
    primary key attribute of every deleted instance to [None]. *)
Definition without_key (t : Termination) : Termination :=
  mkTermination None (termination_circuit t) (termination_site t).

(** [instance.delete()]: DELETE of the rows carrying the instance's key;
    the instance, which the caller still holds, has lost its key. *)
Definition Termination_delete (t : Termination) : M Termination :=
  s <- get_store ;;
  record (Delete TTermination) ;;;
  put_store (mkStore (providers s) (circuits s)
               (filter (fun r => negb (option_Z_eqb (termination_pk r)
                                                    (termination_pk t)))
                       (terminations s))
               (graphs s) (termination_seq s)) ;;;
  ret (without_key t).

(** [messages.success(request, text)]. *)
Definition messages_success (text : string) : M unit :=
  fun w => (Return tt, mkWorld (store w) (trace w) (messages w ++ [text])).

(** ** Forms (django.forms) *)

Definition blank_termination : Termination := mkTermination None None 0.

(** A ModelForm given no instance fills a new one, which has no key yet. *)
Definition construct_instance (c : Cleaned) : Termination :=
  mkTermination None (cleaned_circuit c) (cleaned_site c).

(** [Form()]: unbound, never cleaned, no errors. *)
Definition unbound_form (cls : string) : Form :=
  mkForm cls false [] [] blank_termination.

(** [BaseForm.is_valid]: [self.is_bound and not self.errors]. *)
Definition is_valid (f : Form) : bool :=
  is_bound f && match errors f with [] => true | _ => false end.

(** Python's [not form.errors]: an empty ErrorDict is falsy. *)
Definition no_errors (f : Form) : bool :=
  match errors f with [] => true | _ => false end.

(** [ModelForm.save(commit=False)]: ValueError when the data did not
    validate, else the instance built from the cleaned data. *)
Definition form_save_commit_false (f : Form) : M Termination :=
  match errors f with
  | [] => ret (instance f)
  | _ => raise (ServerError "ValueError")
  end.

Definition reverse (name : string) (pk : Z) : Url := mkUrl name pk.

Definition redirect (name : string) (pk : Z) : Response :=
  Redirect (reverse name pk).

(** ** Class-based views: the attributes this module sets *)

Inductive GenericView :=
| ObjectEditView
| ObjectDeleteView
| BulkImportView
| BulkEditView
| BulkDeleteView.

(** What a class is built from, in the order of its bases. *)
Inductive Base :=
| PermissionRequiredMixin
| Generic (g : GenericView).

Record ViewClass := mkViewClass {
  bases : list Base;
  cls_permission_required : option string;
  cls_model : option string;
  cls_form : option string;
  cls_template_name : option string
}.

Record Kwargs := mkKwargs {
  kw_pk : option Z;
  kw_slug : option string
}.

Definition ProviderEditView :=
  mkViewClass [PermissionRequiredMixin; Generic ObjectEditView]
              (Some "circuits.change_provider")
              (Some "Provider") (Some "ProviderForm")
              (Some "circuits/provider_edit.html").
Definition ProviderDeleteView :=
  mkViewClass [PermissionRequiredMixin; Generic ObjectDeleteView]
              (Some "circuits.delete_provider")
              (Some "Provider") None None.
Definition ProviderBulkImportView :=
  mkViewClass [PermissionRequiredMixin; Generic BulkImportView]
              (Some "circuits.add_provider")
              None (Some "ProviderImportForm")
              (Some "circuits/provider_import.html").
Definition ProviderBulkEditView :=
  mkViewClass [PermissionRequiredMixin; Generic BulkEditView]
              (Some "circuits.change_provider")
              (Some "Provider") (Some "ProviderBulkEditForm")
              (Some "circuits/provider_bulk_edit.html").
Definition ProviderBulkDeleteView :=
  mkViewClass [PermissionRequiredMixin; Generic BulkDeleteView]
              (Some "circuits.delete_provider")
              (Some "Provider") None None.
Definition CircuitTypeEditView :=
  mkViewClass [PermissionRequiredMixin; Generic ObjectEditView]
              (Some "circuits.change_circuittype")
              (Some "CircuitType") (Some "CircuitTypeForm") None.
Definition CircuitTypeBulkDeleteView :=
  mkViewClass [PermissionRequiredMixin; Generic BulkDeleteView]
              (Some "circuits.delete_circuittype")
              (Some "CircuitType") None None.
Definition CircuitEditView :=
  mkViewClass [PermissionRequiredMixin; Generic ObjectEditView]
              (Some "circuits.change_circuit")
              (Some "Circuit") (Some "CircuitForm")
              (Some "circuits/circuit_edit.html").
Definition CircuitDeleteView :=
  mkViewClass [PermissionRequiredMixin; Generic ObjectDeleteView]
              (Some "circuits.delete_circuit")
              (Some "Circuit") None None.
Definition CircuitBulkImportView :=
  mkViewClass [PermissionRequiredMixin; Generic BulkImportView]
              (Some "circuits.add_circuit")
              None (Some "CircuitImportForm")
              (Some "circuits/circuit_import.html").
Definition CircuitBulkEditView :=
  mkViewClass [PermissionRequiredMixin; Generic BulkEditView]
              (Some "circuits.change_circuit")
              (Some "Circuit") (Some "CircuitBulkEditForm")
              (Some "circuits/circuit_bulk_edit.html").
Definition CircuitBulkDeleteView :=
  mkViewClass [PermissionRequiredMixin; Generic BulkDeleteView]
              (Some "circuits.delete_circuit")
              (Some "Circuit") None None.
Definition TerminationEditView :=
  mkViewClass [PermissionRequiredMixin; Generic ObjectEditView]
              (Some "circuits.change_circuit")
              (Some "Termination") (Some "TerminationForm")
              (Some "circuits/termination_edit.html").

(** The classes of the module that write, and those among them that edit
    one object. *)
Definition write_classes : list ViewClass :=
  [ProviderEditView; ProviderDeleteView; ProviderBulkImportView;
   ProviderBulkEditView; ProviderBulkDeleteView; CircuitTypeEditView;
   CircuitTypeBulkDeleteView; CircuitEditView; CircuitDeleteView;
   CircuitBulkImportView; CircuitBulkEditView; CircuitBulkDeleteView;
   TerminationEditView].

Definition edit_classes : list ViewClass :=
  [ProviderEditView; CircuitTypeEditView; CircuitEditView;
   TerminationEditView].

(** A route that writes: a class with its URL arguments, or one of the two
    decorated functions. *)
Inductive WriteRoute :=
| ClassRoute (v : ViewClass) (kwargs : Kwargs)
| TerminationAdd (pk : Z)
| TerminationDelete (pk : Z).

(** The routes this module defines. *)
Definition module_route (r : WriteRoute) : Prop :=
  match r with
  | ClassRoute v _ => In v write_classes
  | TerminationAdd _ | TerminationDelete _ => True
  end.

Definition route_permission (r : WriteRoute) : option string :=
  match r with
  | ClassRoute v _ => cls_permission_required v
  | TerminationAdd _ => Some "circuits.change_circuit"
  | TerminationDelete _ => Some "circuits.delete_circuit"
  end.

(** ** The answer of Django's gate to a caller without the permission *)

(** [redirect_to_login(next)]: a redirect to the login page. *)
Definition redirect_to_login (next : string) : Response :=
  LoginRedirect next.

(** [PermissionDenied] (403) when [raise_exception] is set, a redirect to
    the login page otherwise; this is so for the decorator
    ([permission_required(perm, login_url=None, raise_exception=False)])
    and for the mixin ([AccessMixin.handle_no_permission]). *)
Definition no_permission (raise_exception : bool) (request : Request)
  : Response :=
  if raise_exception then Forbidden else redirect_to_login (path request).

(** No decorator and no class of the module sets [raise_exception]: it has
    its default. *)
Definition raise_exception : bool := false.

(** ** The handlers *)

Module Views.

Section Handlers.

(** The collaborators the module imports: the permission gate
    (django.contrib.auth), the form classes (circuits.forms,
    utilities.forms), the display names (circuits.models), the graph type
    constant (extras.models) and the generic views (utilities.views). *)
Variable has_perm : string -> string -> bool.
Variable handle_no_permission : Request -> Response.
Variable TerminationForm_full_clean : QueryDict -> ErrorDict * Cleaned.
Variable ConfirmationForm_full_clean : QueryDict -> ErrorDict.
Variable Termination_str : Termination -> string.
Variable Circuit_str : Circuit -> string.
Variable GRAPH_TYPE_PROVIDER : Z.
Variable generic_view :
  GenericView -> ViewClass -> Request -> Kwargs -> M Response.

(** [@permission_required(perm)]: the view runs only for a user holding
    [perm]. *)
Definition permission_required (perm : string)
           (view : Request -> Z -> M Response)
  : Request -> Z -> M Response :=
  fun request pk =>
    if has_perm (user request) perm
    then view request pk
    else ret (handle_no_permission request).

(** [dispatch] along the bases of a class.  [PermissionRequiredMixin]
    answers for a user without [permission_required] and hands over to the
    next base otherwise ([super().dispatch]); a generic view handles the
    request itself. *)
Fixpoint dispatch_along (bs : list Base) (v : ViewClass)
         (request : Request) (kwargs : Kwargs) : M Response :=
  match bs with
  | [] => raise (ServerError "AttributeError")
  | PermissionRequiredMixin :: rest =>
    match cls_permission_required v with
    | None => raise (ServerError "ImproperlyConfigured")
    | Some perm =>
      if has_perm (user request) perm
      then dispatch_along rest v request kwargs
      else ret (handle_no_permission request)
    end
  | Generic g :: _ => generic_view g v request kwargs
  end.

Definition dispatch (v : ViewClass) (request : Request) (kwargs : Kwargs)
  : M Response :=
  dispatch_along (bases v) v request kwargs.

(** [forms.TerminationForm(request.POST)] and [forms.TerminationForm()]. *)
Definition TerminationForm (posted : option QueryDict) : Form :=
  match posted with
  | Some d =>
    let (e, c) := TerminationForm_full_clean d in
    mkForm "TerminationForm" true d e (construct_instance c)
  | None => unbound_form "TerminationForm"
  end.

Definition ConfirmationForm (posted : option QueryDict) : Form :=
  match posted with
  | Some d =>
    mkForm "ConfirmationForm" true d (ConfirmationForm_full_clean d)
           blank_termination
  | None => unbound_form "ConfirmationForm"
  end.

(** [form.is_valid()], which is where a bound form gets cleaned. *)
Definition form_is_valid (f : Form) : M bool :=
  record (FormClean (form_class f)) ;;;
  ret (is_valid f).

(** The queryset [circuits] is lazy: it is read when the template renders,
    after the graphs have been looked up. *)
Definition provider (request : Request) (slug : string) : M Response :=
  provider <- get_object_or_404 TProvider (find_provider slug) ;;
  let circuits := Circuit_filter_provider provider in
  show_graphs <- Graph_filter_type_exists GRAPH_TYPE_PROVIDER ;;
  circuits <- circuits ;;
  ret (Render "circuits/provider.html"
              [("provider", VProvider provider);
               ("circuits", VCircuits circuits);
               ("show_graphs", VBool show_graphs)]).

Definition circuit (request : Request) (pk : Z) : M Response :=
  circuit <- get_object_or_404 TCircuit (find_circuit pk) ;;
  ret (Render "circuits/circuit.html" [("circuit", VCircuit circuit)]).

Definition with_circuit (t : Termination) (c : Circuit) : Termination :=
  mkTermination (termination_pk t) (Some (circuit_pk c))
                (termination_site t).

Definition render_termination_edit (form : Form) (circuit : Circuit)
  : Response :=
  Render "circuits/termination_edit.html"
         [("form", VForm form);
          ("obj_type", VStr "Termination");
          ("cancel_url", VUrl (reverse "circuits:circuit"
                                       (circuit_pk circuit)))].

(** The body of [termination_add], under its decorator. *)
Definition termination_add_body (request : Request) (pk : Z)
  : M Response :=
  circuit <- get_object_or_404 TCircuit (find_circuit pk) ;;
  if String.eqb (method request) "POST" then
    let form := TerminationForm (Some (POST request)) in
    valid <- form_is_valid form ;;
    if valid then
      if no_errors form then
        new_termination <- form_save_commit_false form ;;
        let new_termination := with_circuit new_termination circuit in
        Termination_save new_termination ;;;
        if contains_key "_addanother" (POST request)
        then ret (redirect "circuits:termination_add" (circuit_pk circuit))
        else ret (redirect "circuits:circuit" (circuit_pk circuit))
      else ret (render_termination_edit form circuit)
    else ret (render_termination_edit form circuit)
  else
    let form := TerminationForm None in
    ret (render_termination_edit form circuit).

Definition termination_add : Request -> Z -> M Response :=
  permission_required "circuits.change_circuit" termination_add_body.

(** [termination_add] with line 174 ([if not form.errors:]) taken out. *)
Definition termination_add_unguarded_body (request : Request) (pk : Z)
  : M Response :=
  circuit <- get_object_or_404 TCircuit (find_circuit pk) ;;
  if String.eqb (method request) "POST" then
    let form := TerminationForm (Some (POST request)) in
    valid <- form_is_valid form ;;
    if valid then
      new_termination <- form_save_commit_false form ;;
      let new_termination := with_circuit new_termination circuit in
      Termination_save new_termination ;;;
      if contains_key "_addanother" (POST request)
      then ret (redirect "circuits:termination_add" (circuit_pk circuit))
      else ret (redirect "circuits:circuit" (circuit_pk circuit))
    else ret (render_termination_edit form circuit)
  else
    let form := TerminationForm None in
    ret (render_termination_edit form circuit).

Definition termination_add_unguarded : Request -> Z -> M Response :=
  permission_required "circuits.change_circuit"
                      termination_add_unguarded_body.

Definition deleted_notice (t : Termination) (c : Circuit) : string :=
  ("Termination " ++ Termination_str t ++ " has been deleted from "
   ++ Circuit_str c)%string.

Definition render_termination_delete (termination : Termination)
           (form : Form) (circuit : Circuit) : Response :=
  Render "circuits/termination_delete.html"
         [("termination", VTermination termination);
          ("form", VForm form);
          ("cancel_url", VUrl (reverse "circuits:circuit"
                                       (circuit_pk circuit)))].

Definition termination_delete_body (request : Request) (pk : Z)
  : M Response :=
  termination <- get_object_or_404 TTermination (find_termination pk) ;;
  if String.eqb (method request) "POST" then
    let form := ConfirmationForm (Some (POST request)) in
    valid <- form_is_valid form ;;
    if valid then
      termination <- Termination_delete termination ;;
      parent <- Termination_circuit termination ;;
      messages_success (deleted_notice termination parent) ;;;
      ret (redirect "circuits:circuit" (circuit_pk parent))
    else
      parent <- Termination_circuit termination ;;
      ret (render_termination_delete termination form parent)
  else
    let form := ConfirmationForm None in
    parent <- Termination_circuit termination ;;
    ret (render_termination_delete termination form parent).

Definition termination_delete : Request -> Z -> M Response :=
  permission_required "circuits.delete_circuit" termination_delete_body.

(** What a write route of the module runs. *)
Definition serve (r : WriteRoute) (request : Request) : M Response :=
  match r with
  | ClassRoute v kwargs => dispatch v request kwargs
  | TerminationAdd pk => termination_add request pk
  | TerminationDelete pk => termination_delete request pk
  end.

End Handlers.

End Views.

Import Views.

(** ** The generic edit view *)

Section GenericEdit.

(** The collaborators of the generic edit view: the validator of the
    class's form, the form a read request shows (empty, or filled from the
    entity), and the store's insert-or-update, which gives the entity's
    detail page. *)
Variable form_full_clean : ViewClass -> QueryDict -> ErrorDict.
Variable form_initial : ViewClass -> Kwargs -> M Form.
Variable persist : ViewClass -> Kwargs -> QueryDict -> M Url.
Variable default_template_name : string.

Definition template_of (v : ViewClass) : string :=
  match cls_template_name v with
  | Some t => t
  | None => default_template_name
  end.

Definition form_of (v : ViewClass) : string :=
  match cls_form v with
  | Some f => f
  | None => ""
  end.

(** The class's form bound to posted data. *)
Definition edit_form (v : ViewClass) (d : QueryDict) : Form :=
  mkForm (form_of v) true d (form_full_clean v d) blank_termination.

(** Modelled from the spec: ObjectEditView of utilities.views, the generic
    Edit View that ProviderEditView, CircuitTypeEditView, CircuitEditView
    and TerminationEditView subclass and whose code is not in this module.
    Spec 4.3: on a read request, render an empty form (create) or a form
    pre-populated from the existing entity (update); on a submit request,
    validate the posted fields; valid: persist (insert or update) and
    redirect to the entity's detail page, or re-render the empty form if
    the caller asked to add another; invalid: re-render the form with
    field-level error annotations, no persistence occurs. *)
Definition ObjectEditView_view (v : ViewClass) (request : Request)
           (kwargs : Kwargs) : M Response :=
  if String.eqb (method request) "POST" then
    let form := edit_form v (POST request) in
    valid <- form_is_valid form ;;
    if valid then
      detail <- persist v kwargs (POST request) ;;
      if contains_key "_addanother" (POST request)
      then
        empty <- form_initial v (mkKwargs None None) ;;
        ret (Render (template_of v) [("form", VForm empty)])
      else ret (Redirect detail)
    else ret (Render (template_of v) [("form", VForm form)])
  else
    form <- form_initial v kwargs ;;
    ret (Render (template_of v) [("form", VForm form)]).

(** The generic views, with the edit view as the spec has it. *)
Definition generic_views
           (other : GenericView -> ViewClass -> Request -> Kwargs
                    -> M Response)
           (g : GenericView)
  : ViewClass -> Request -> Kwargs -> M Response :=
  match g with
  | ObjectEditView => ObjectEditView_view
  | _ => other g
  end.

End GenericEdit.

(** ** List views: [Model.objects.annotate(n=Count('children'))] *)

Section Annotate.

Context {P C : Type}.
Variable pk : P -> Z.
Variable fk : C -> option Z.

Definition related (p : P) (cs : list C) : list C :=
  filter (fun c => option_Z_eqb (fk c) (Some (pk p))) cs.

(** The joined rows of one parent: one per child, or one with a NULL child
    when it has none. *)
Definition joined_rows (p : P) (cs : list C) : list (P * option C) :=
  match related p cs with
  | [] => [(p, None)]
  | m => map (fun c => (p, Some c)) m
  end.

(** parent LEFT OUTER JOIN child ON child.fk = parent.pk *)
Definition left_outer_join (ps : list P) (cs : list C)
  : list (P * option C) :=
  flat_map (fun p => joined_rows p cs) ps.

(** COUNT(child.pk): the rows of the group whose child is not NULL. *)
Definition Count (rows : list (P * option C)) : nat :=
  List.length (filter (fun r => match snd r with
                                | Some _ => true
                                | None => false
                                end) rows).

(** GROUP BY parent.pk: one parent per key, in order of appearance. *)
Fixpoint group_keys (l : list P) : list P :=
  match l with
  | [] => []
  | p :: l' => p :: filter (fun q => negb (pk q =? pk p)) (group_keys l')
  end.

Definition annotate_count (ps : list P) (cs : list C) : list (P * nat) :=
  let joined := left_outer_join ps cs in
  map (fun p => (p, Count (filter (fun r => pk (fst r) =? pk p) joined)))
      (group_keys (map fst joined)).

End Annotate.

(** [Provider.objects.annotate(count_circuits=Count('circuits'))] *)
Definition ProviderListView_queryset (s : Store) : list (Provider * nat) :=
  annotate_count provider_pk (fun c => Some (circuit_provider c))
                 (providers s) (circuits s).

(** [Circuit.objects.select_related(...)
      .annotate(count_terminations=Count('terminations'))] *)
Definition CircuitListView_queryset (s : Store) : list (Circuit * nat) :=
  annotate_count circuit_pk termination_circuit (circuits s) (terminations s).

(** ** Properties of responses *)


(** The response is a page carrying the blank, unbound termination form. *)
Definition rerenders_empty_form (r : Response) : Prop :=
  exists template ctx,
    r = Render template ctx
    /\ context_get "form" ctx = Some (VForm (unbound_form "TerminationForm")).

(** The response is a page whose context tells whether graphs exist. *)
Definition displays_graphs (r : Response) : Prop :=
  exists template ctx b,
    r = Render template ctx
    /\ context_get "show_graphs" ctx = Some (VBool b).

Definition selects (t : Table) (e : Event) : bool :=
  match e, t with
  | Select TProvider, TProvider => true
  | Select TCircuit, TCircuit => true
  | Select TTermination, TTermination => true
  | Select TGraph, TGraph => true
  | _, _ => false
  end.

Definition is_read (e : Event) : bool :=
  match e with
  | Select _ => true
  | _ => false
  end.

(** ** Worlds a handler can leave behind *)

Definition after_events (w : World) (es : list Event) : World :=
  mkWorld (store w) (trace w ++ es) (messages w).

(** The row [termination_add] inserts for a valid [form] under circuit [c]. *)
Definition created_termination (s : Store) (form : Form) (c : Circuit)
  : Termination :=
  mkTermination (Some (termination_seq s)) (Some (circuit_pk c))
                (termination_site (instance form)).

Definition with_termination (s : Store) (t : Termination) : Store :=
  mkStore (providers s) (circuits s) (terminations s ++ [t]) (graphs s)
          (termination_seq s + 1).

Definition with_terminations (s : Store) (ts : list Termination) : Store :=
  mkStore (providers s) (circuits s) ts (graphs s) (termination_seq s).

(** ** What the database guarantees of the termination table *)

(** Primary keys are unique. *)
Definition keys_unique (s : Store) : Prop :=
  NoDup (map termination_pk (terminations s)).

(** Every row has a key, and the sequence is past all of them. *)
Definition keys_issued (s : Store) : Prop :=
  forall t, In t (terminations s) ->
            exists k, termination_pk t = Some k /\ k < termination_seq s.

(** The foreign key of every row names a circuit. *)
Definition circuits_exist (s : Store) : Prop :=
  forall t, In t (terminations s) ->
            exists k c, termination_circuit t = Some k
                        /\ find_circuit k s = Some c.

Definition store_ok (s : Store) : Prop :=
  keys_unique s /\ keys_issued s /\ circuits_exist s.

(** The foreign key of every circuit names a provider. *)
Definition providers_exist (s : Store) : Prop :=
  forall c, In c (circuits s) ->
            exists p, In p (providers s)
                      /\ provider_pk p = circuit_provider c.

(** The circuit the foreign key of [t] resolves to, if any. *)
Definition parent_of (t : Termination) (s : Store) : option Circuit :=
  match termination_circuit t with
  | Some k => find_circuit k s
  | None => None
  end.

(** The rows a DELETE by key [pk] leaves. *)
Definition without_pk (pk : Z) (ts : list Termination) : list Termination :=
  filter (fun r => negb (option_Z_eqb (termination_pk r) (Some pk))) ts.

(** A list row of circuit [pk] with one more termination counted. *)
Definition count_up (pk : Z) (row : Circuit * nat) : Circuit * nat :=
  if circuit_pk (fst row) =? pk then (fst row, S (snd row)) else row.

(** A list row of circuit [pk] with one termination fewer counted. *)
Definition count_down (pk : Z) (row : Circuit * nat) : Circuit * nat :=
  if circuit_pk (fst row) =? pk then (fst row, pred (snd row)) else row.

(** ** A small installation, for running the handlers *)

Module Sample.

Definition acme := mkProvider 1 "acme" "Acme".
Definition link := mkCircuit 7 "ACME-0007" 1.
Definition spare := mkCircuit 8 "ACME-0008" 1.
Definition side_a := mkTermination (Some 1) (Some 7) 10.
Definition side_z := mkTermination (Some 2) (Some 7) 11.

Definition db : Store :=
  mkStore [acme] [link; spare] [side_a; side_z] [mkGraph 1 200] 3.

Definition world : World := mkWorld db [] [].

Definition allow : string -> string -> bool := fun _ _ => true.
Definition deny : string -> string -> bool := fun _ _ => false.

Definition to_login (request : Request) : Response :=
  LoginRedirect (path request).

(** A TerminationForm that requires [site] and would take a posted
    [circuit] at its word. *)
Definition clean_termination (d : QueryDict) : ErrorDict * Cleaned :=
  if contains_key "site" d
  then ([], mkCleaned (if contains_key "circuit" d then Some 8 else None) 12)
  else ([("site", "This field is required.")], mkCleaned None 0).

Definition clean_confirmation (d : QueryDict) : ErrorDict :=
  if contains_key "confirm" d then []
  else [("confirm", "This field is required.")].

Definition termination_name (t : Termination) : string :=
  match termination_site t with
  | 10 => "Side A"
  | _ => "Side Z"
  end.

Definition circuit_name (c : Circuit) : string := circuit_cid c.

Definition no_generic (g : GenericView) (v : ViewClass)
           (request : Request) (k : Kwargs)
  : M Response := raise (ServerError "NotImplementedError").

(** Edit forms that require a name. *)
Definition clean_edit (v : ViewClass) (d : QueryDict) : ErrorDict :=
  if contains_key "name" d then []
  else [("name", "This field is required.")].

Definition initial_edit (v : ViewClass) (k : Kwargs) : M Form :=
  ret (unbound_form (form_of v)).

Definition persist_nothing (v : ViewClass) (k : Kwargs) (d : QueryDict)
  : M Url := ret (mkUrl "circuits:provider" 1).

Definition get (who : string) : Request :=
  mkRequest "GET" [] who "/circuits/".

Definition post (who : string) (d : QueryDict) : Request :=
  mkRequest "POST" d who "/circuits/".

End Sample.

(** * Verification *)

(** ** The monad *)

Lemma bind_ret {A B} (a : A) (k : A -> M B) (w : World) :
  bind (ret a) k w = k a w.
Proof. reflexivity. Qed.

Lemma bind_raise {A B} (r : Response) (k : A -> M B) (w : World) :
  bind (raise r) k w = (Raise r, w).
Proof. reflexivity. Qed.

Lemma bind_bind {A B C} (m : M A) (k : A -> M B) (h : B -> M C) (w : World) :
  bind (bind m k) h w = bind m (fun a => bind (k a) h) w.
Proof.
  unfold bind. destruct (m w) as [[a | r] w']; reflexivity.
Qed.

Lemma bind_ext {A B} (m : M A) (k k' : A -> M B) (w : World) :
  (forall a w', k a w' = k' a w') -> bind m k w = bind m k' w.
Proof.
  intros H. unfold bind.
  destruct (m w) as [[a | r] w']; [apply H | reflexivity].
Qed.

Lemma get_object_or_404_found {A} (t : Table) (lookup : Store -> option A)
      (a : A) (w : World) :
  lookup (store w) = Some a ->
  get_object_or_404 t lookup w
  = (Return a, mkWorld (store w) (trace w ++ [Select t]) (messages w)).
Proof.
  intros H. unfold get_object_or_404, bind, record, get_store. cbn.
  rewrite H. reflexivity.
Qed.

Lemma get_object_or_404_missing {A} (t : Table) (lookup : Store -> option A)
      (w : World) :
  lookup (store w) = None ->
  get_object_or_404 t lookup w
  = (Raise Http404, mkWorld (store w) (trace w ++ [Select t]) (messages w)).
Proof.
  intros H. unfold get_object_or_404, bind, record, get_store. cbn.
  rewrite H. reflexivity.
Qed.

Lemma is_valid_no_errors (f : Form) : is_valid f = true -> no_errors f = true.
Proof.
  unfold is_valid, no_errors. intros H.
  apply andb_true_iff in H. apply H.
Qed.

Lemma find_circuit_pk (pk : Z) (s : Store) (c : Circuit) :
  find_circuit pk s = Some c -> circuit_pk c = pk.
Proof.
  unfold find_circuit. intros H. apply find_some in H.
  destruct H as [_ H]. now apply Z.eqb_eq in H.
Qed.

Lemma option_Z_eqb_eq (a b : option Z) : option_Z_eqb a b = true <-> a = b.
Proof.
  destruct a as [x |], b as [y |]; cbn; split; intros H;
    try discriminate; try reflexivity.
  - apply Z.eqb_eq in H. now subst.
  - injection H as ->. apply Z.eqb_refl.
Qed.

Lemma option_Z_eqb_refl (a : option Z) : option_Z_eqb a a = true.
Proof. now apply option_Z_eqb_eq. Qed.

Lemma filter_keeps_all {A} (f : A -> bool) (l : list A) :
  (forall x, In x l -> f x = true) -> filter f l = l.
Proof.
  induction l as [| a l IH]; cbn; intros H; [reflexivity |].
  rewrite (H a (or_introl eq_refl)). f_equal. apply IH.
  intros x Hx. apply H. now right.
Qed.

Lemma filter_drops_all {A} (f : A -> bool) (l : list A) :
  (forall x, In x l -> f x = false) -> filter f l = [].
Proof.
  induction l as [| a l IH]; cbn; intros H; [reflexivity |].
  rewrite (H a (or_introl eq_refl)). apply IH.
  intros x Hx. apply H. now right.
Qed.

(** DELETE by key removes the one row that has it, when keys are unique. *)
Lemma delete_by_pk_removes_one (ts : list Termination) (pk : Z)
      (t : Termination) :
  NoDup (map termination_pk ts) ->
  find (fun r => option_Z_eqb (termination_pk r) (Some pk)) ts = Some t ->
  exists before after,
    ts = before ++ t :: after
    /\ filter (fun r => negb (option_Z_eqb (termination_pk r)
                                           (termination_pk t))) ts
       = before ++ after.
Proof.
  induction ts as [| r ts IH]; cbn; intros Hnodup Hfind; [discriminate |].
  inversion Hnodup as [| k ks Hfresh Hrest]; subst.
  destruct (option_Z_eqb (termination_pk r) (Some pk)) eqn:Hr.
  - injection Hfind as ->. exists [], ts. split; [reflexivity |].
    rewrite option_Z_eqb_refl. cbn. apply filter_keeps_all.
    intros x Hx. apply negb_true_iff.
    destruct (option_Z_eqb (termination_pk x) (termination_pk t)) eqn:Hx';
      [| reflexivity].
    apply option_Z_eqb_eq in Hx'. exfalso. apply Hfresh.
    rewrite <- Hx'. now apply in_map.
  - destruct (IH Hrest Hfind) as (before & after & Hsplit & Hfilter).
    exists (r :: before), after. split; [cbn; now f_equal |].
    assert (Ht : termination_pk t = Some pk).
    { apply find_some in Hfind. now apply option_Z_eqb_eq. }
    rewrite Ht in *. rewrite Hr. cbn. now f_equal.
Qed.



Ltac step_found H := rewrite (get_object_or_404_found _ _ _ _ H); cbn.
Ltac step_missing H := rewrite (get_object_or_404_missing _ _ _ H); cbn.

Section Correctness.

Variable has_perm : string -> string -> bool.
Variable handle_no_permission : Request -> Response.
Variable TerminationForm_full_clean : QueryDict -> ErrorDict * Cleaned.
Variable ConfirmationForm_full_clean : QueryDict -> ErrorDict.
Variable Termination_str : Termination -> string.
Variable Circuit_str : Circuit -> string.
Variable GRAPH_TYPE_PROVIDER : Z.
Variable generic_view :
  GenericView -> ViewClass -> Request -> Kwargs -> M Response.
Variable form_full_clean : ViewClass -> QueryDict -> ErrorDict.
Variable form_initial : ViewClass -> Kwargs -> M Form.
Variable persist : ViewClass -> Kwargs -> QueryDict -> M Url.
Variable default_template_name : string.

Local Abbreviation termination_add :=
  (Views.termination_add has_perm handle_no_permission
                         TerminationForm_full_clean).
Local Abbreviation termination_add_body :=
  (Views.termination_add_body TerminationForm_full_clean).
Local Abbreviation termination_add_unguarded :=
  (Views.termination_add_unguarded has_perm handle_no_permission
                             TerminationForm_full_clean).
Local Abbreviation termination_delete :=
  (Views.termination_delete has_perm handle_no_permission
                      ConfirmationForm_full_clean
                      Termination_str Circuit_str).
Local Abbreviation TerminationForm :=
  (Views.TerminationForm TerminationForm_full_clean).
Local Abbreviation ConfirmationForm :=
  (Views.ConfirmationForm ConfirmationForm_full_clean).
Local Abbreviation provider := (Views.provider GRAPH_TYPE_PROVIDER).

(** What [termination_add] does under the gate, case by case. *)

Lemma TerminationForm_class (posted : option QueryDict) :
  form_class (TerminationForm posted) = "TerminationForm".
Proof.
  destruct posted as [d |]; cbn; [| reflexivity].
  now destruct (TerminationForm_full_clean d).
Qed.

Lemma TerminationForm_bound (d : QueryDict) :
  is_bound (TerminationForm (Some d)) = true.
Proof. cbn. now destruct (TerminationForm_full_clean d). Qed.

Lemma TerminationForm_instance_new (d : QueryDict) :
  termination_pk (instance (TerminationForm (Some d))) = None.
Proof. cbn. now destruct (TerminationForm_full_clean d). Qed.

Lemma termination_add_body_get (request : Request) (pk : Z) (w : World)
      (c : Circuit) :
  find_circuit pk (store w) = Some c ->
  String.eqb (method request) "POST" = false ->
  termination_add_body request pk w
  = (Return (render_termination_edit (TerminationForm None) c),
     after_events w [Select TCircuit]).
Proof.
  intros Hc Hget. unfold Views.termination_add_body, bind at 1.
  step_found Hc. now rewrite Hget.
Qed.

Lemma termination_add_body_invalid (request : Request) (pk : Z) (w : World)
      (c : Circuit) :
  find_circuit pk (store w) = Some c ->
  String.eqb (method request) "POST" = true ->
  is_valid (TerminationForm (Some (POST request))) = false ->
  termination_add_body request pk w
  = (Return (render_termination_edit (TerminationForm (Some (POST request))) c),
     after_events w [Select TCircuit; FormClean "TerminationForm"]).
Proof.
  intros Hc Hpost Hinvalid. unfold Views.termination_add_body.
  pose proof (TerminationForm_class (Some (POST request))) as Hcls.
  set (form := TerminationForm (Some (POST request))) in *. clearbody form.
  unfold bind at 1. step_found Hc. rewrite Hpost.
  unfold form_is_valid, bind, record, ret. cbn.
  rewrite Hinvalid, Hcls.
  unfold after_events. now rewrite <- app_assoc.
Qed.

Lemma termination_add_body_valid (request : Request) (pk : Z) (w : World)
      (c : Circuit) :
  find_circuit pk (store w) = Some c ->
  String.eqb (method request) "POST" = true ->
  is_valid (TerminationForm (Some (POST request))) = true ->
  termination_add_body request pk w
  = (Return (if contains_key "_addanother" (POST request)
             then redirect "circuits:termination_add" (circuit_pk c)
             else redirect "circuits:circuit" (circuit_pk c)),
     mkWorld (with_termination
                (store w)
                (created_termination
                   (store w) (TerminationForm (Some (POST request))) c))
             (trace w ++ [Select TCircuit; FormClean "TerminationForm";
                          Insert TTermination])
             (messages w)).
Proof.
  intros Hc Hpost Hvalid. unfold Views.termination_add_body.
  pose proof (is_valid_no_errors _ Hvalid) as Hno.
  pose proof (TerminationForm_instance_new (POST request)) as Hnew.
  pose proof (TerminationForm_class (Some (POST request))) as Hcls.
  set (form := TerminationForm (Some (POST request))) in *. clearbody form.
  unfold bind at 1. step_found Hc. rewrite Hpost.
  unfold form_is_valid, bind at 1 2, record, ret. cbn.
  rewrite Hvalid, Hno. unfold form_save_commit_false.
  unfold no_errors in Hno.
  destruct (errors form); [| discriminate].
  unfold bind at 1, ret. unfold Termination_save, with_circuit. cbn.
  unfold bind at 1 2, get_store. cbn. rewrite Hnew.
  unfold bind, record, put_store, ret. cbn.
  rewrite Hcls, <- !app_assoc. cbn.
  now destruct (contains_key "_addanother" (POST request)).
Qed.

Lemma termination_add_allowed (request : Request) (pk : Z) (w : World) :
  has_perm (user request) "circuits.change_circuit" = true ->
  termination_add request pk w = termination_add_body request pk w.
Proof.
  intros Hperm. unfold Views.termination_add, permission_required.
  now rewrite Hperm.
Qed.

(** C1. A POST to termination add for circuit pk either leaves the
    terminations as they were or appends exactly one row, and the circuit
    of that row is pk, whatever circuit the form carried (the form
    validator is arbitrary here).  The row is appended whenever the caller
    passes the gate, circuit pk exists and the form validates. *)
Theorem termination_add_sets_circuit
        (request : Request) (pk : Z) (w : World) :
  String.eqb (method request) "POST" = true ->
  let form := TerminationForm (Some (POST request)) in
  let w' := snd (respond (termination_add request pk) w) in
  (terminations (store w') = terminations (store w)
   \/ exists t,
      terminations (store w') = terminations (store w) ++ [t]
      /\ termination_circuit t = Some pk)
  /\ (forall c,
         has_perm (user request) "circuits.change_circuit" = true ->
         find_circuit pk (store w) = Some c ->
         is_valid form = true ->
         terminations (store w')
         = terminations (store w) ++ [created_termination (store w) form c]
         /\ termination_circuit (created_termination (store w) form c)
            = Some pk).
Proof.
  intros Hpost form w'. subst w'. unfold respond.
  assert (Hlive : forall c,
             has_perm (user request) "circuits.change_circuit" = true ->
             find_circuit pk (store w) = Some c ->
             is_valid form = true ->
             terminations
               (store (snd (let (o, w0) := termination_add request pk w in
                            match o with
                            | Return r => (r, w0)
                            | Raise r => (r, w0)
                            end)))
             = terminations (store w) ++ [created_termination (store w) form c]
             /\ termination_circuit (created_termination (store w) form c)
                = Some pk).
  { intros c Hperm Hc Hvalid.
    rewrite (termination_add_allowed _ _ _ Hperm).
    rewrite (termination_add_body_valid _ _ _ _ Hc Hpost Hvalid). cbn.
    split; [reflexivity |]. now rewrite (find_circuit_pk _ _ _ Hc). }
  split; [| exact Hlive].
  destruct (has_perm (user request) "circuits.change_circuit") eqn:Hperm.
  - destruct (find_circuit pk (store w)) as [c |] eqn:Hc.
    + destruct (is_valid form) eqn:Hvalid.
      * right. exists (created_termination (store w) form c).
        now apply Hlive.
      * left. rewrite (termination_add_allowed _ _ _ Hperm).
        now rewrite (termination_add_body_invalid _ _ _ _ Hc Hpost Hvalid).
    + left. rewrite (termination_add_allowed _ _ _ Hperm).
      unfold Views.termination_add_body, bind at 1.
      now step_missing Hc.
  - left. unfold Views.termination_add, permission_required.
    now rewrite Hperm.
Qed.

(** A POST to termination add whose fields fail validation gets the same
    form page back, carrying the bound form and its errors (there is at
    least one); nothing is written, the store is unchanged, and the
    response is not a redirect. *)
Lemma termination_add_invalid_rerenders
        (request : Request) (pk : Z) (w : World) (c : Circuit) :
  String.eqb (method request) "POST" = true ->
  has_perm (user request) "circuits.change_circuit" = true ->
  find_circuit pk (store w) = Some c ->
  is_valid (TerminationForm (Some (POST request))) = false ->
  let form := TerminationForm (Some (POST request)) in
  let (response, w') := respond (termination_add request pk) w in
  response = Render "circuits/termination_edit.html"
                    [("form", VForm form);
                     ("obj_type", VStr "Termination");
                     ("cancel_url", VUrl (reverse "circuits:circuit" pk))]
  /\ errors form <> []
  /\ store w' = store w
  /\ trace w' = trace w ++ [Select TCircuit; FormClean "TerminationForm"]
  /\ (forall u, response <> Redirect u).
Proof.
  intros Hpost Hperm Hc Hinvalid form. unfold respond.
  rewrite (termination_add_allowed _ _ _ Hperm).
  rewrite (termination_add_body_invalid _ _ _ _ Hc Hpost Hinvalid).
  unfold render_termination_edit. rewrite (find_circuit_pk _ _ _ Hc).
  repeat split; try discriminate.
  intros Hempty. unfold is_valid in Hinvalid. fold form in Hinvalid.
  rewrite Hempty in Hinvalid. subst form.
  now rewrite TerminationForm_bound in Hinvalid.
Qed.

Lemma ObjectEditView_view_invalid (v : ViewClass) (request : Request)
      (kwargs : Kwargs) (w : World) :
  String.eqb (method request) "POST" = true ->
  is_valid (edit_form form_full_clean v (POST request)) = false ->
  ObjectEditView_view form_full_clean form_initial persist
                      default_template_name v request kwargs w
  = (Return (Render (template_of default_template_name v)
                    [("form",
                      VForm (edit_form form_full_clean v (POST request)))]),
     after_events w [FormClean (form_of v)]).
Proof.
  intros Hpost Hinvalid. unfold ObjectEditView_view. rewrite Hpost.
  unfold form_is_valid, bind, record, ret. cbn -[edit_form].
  now rewrite Hinvalid.
Qed.

(** C4. An edit-form submission whose posted fields fail validation gets
    the same form page back, carrying the bound form and its errors (there
    is at least one); nothing is persisted, the store is unchanged, and
    the response is not a redirect.  This holds for termination add, and
    for the four class-based edit views (provider, circuit type, circuit,
    termination) once the caller has passed their gate, with the generic
    edit view they inherit taken as the spec describes it. *)
Theorem edit_invalid_rerenders :
  (forall (request : Request) (pk : Z) (w : World) (c : Circuit),
      String.eqb (method request) "POST" = true ->
      has_perm (user request) "circuits.change_circuit" = true ->
      find_circuit pk (store w) = Some c ->
      is_valid (TerminationForm (Some (POST request))) = false ->
      let form := TerminationForm (Some (POST request)) in
      let (response, w') := respond (termination_add request pk) w in
      response = Render "circuits/termination_edit.html"
                        [("form", VForm form);
                         ("obj_type", VStr "Termination");
                         ("cancel_url", VUrl (reverse "circuits:circuit" pk))]
      /\ errors form <> []
      /\ store w' = store w
      /\ trace w' = trace w ++ [Select TCircuit; FormClean "TerminationForm"]
      /\ (forall u, response <> Redirect u))
  /\ (forall (v : ViewClass) (request : Request) (kwargs : Kwargs)
             (w : World) (perm : string),
         In v edit_classes ->
         cls_permission_required v = Some perm ->
         has_perm (user request) perm = true ->
         String.eqb (method request) "POST" = true ->
         is_valid (edit_form form_full_clean v (POST request)) = false ->
         let form := edit_form form_full_clean v (POST request) in
         let (response, w') :=
           respond (dispatch has_perm handle_no_permission
                             (generic_views form_full_clean form_initial
                                            persist default_template_name
                                            generic_view)
                             v request kwargs) w in
         response = Render (template_of default_template_name v)
                           [("form", VForm form)]
         /\ errors form <> []
         /\ store w' = store w
         /\ trace w' = trace w ++ [FormClean (form_of v)]
         /\ (forall u, response <> Redirect u)).
Proof.
  split; [exact termination_add_invalid_rerenders |].
  intros v request kwargs w perm Hedit Hrequired Hperm Hpost Hinvalid form.
  assert (Hrun : dispatch has_perm handle_no_permission
                          (generic_views form_full_clean form_initial
                                         persist default_template_name
                                         generic_view)
                          v request kwargs w
                 = ObjectEditView_view form_full_clean form_initial persist
                                       default_template_name
                                       v request kwargs w).
  { unfold dispatch.
    repeat (destruct Hedit as [<- | Hedit]);
      try (injection Hrequired as <-; cbn; now rewrite Hperm).
    destruct Hedit. }
  unfold respond. rewrite Hrun.
  rewrite (ObjectEditView_view_invalid _ _ _ _ Hpost Hinvalid).
  fold form. repeat split; try discriminate.
  intros Hempty. unfold is_valid in Hinvalid. fold form in Hinvalid.
  rewrite Hempty in Hinvalid. discriminate Hinvalid.
Qed.

(** C6, as the code has it.  A POST to termination add with valid fields
    inserts the termination under circuit pk and answers with a redirect in
    both cases: to the detail page of circuit pk (the parent; a termination
    has no page of its own), or, when [_addanother] is among the posted
    keys, to the termination add page of the same circuit, whose GET
    renders the empty form. *)
Theorem termination_add_valid_redirects
        (request : Request) (pk : Z) (w : World) (c : Circuit) :
  String.eqb (method request) "POST" = true ->
  has_perm (user request) "circuits.change_circuit" = true ->
  find_circuit pk (store w) = Some c ->
  is_valid (TerminationForm (Some (POST request))) = true ->
  let form := TerminationForm (Some (POST request)) in
  let (response, w') := respond (termination_add request pk) w in
  response = Redirect (reverse (if contains_key "_addanother" (POST request)
                                then "circuits:termination_add"
                                else "circuits:circuit") pk)
  /\ store w' = with_termination (store w)
                                 (created_termination (store w) form c)
  /\ forall again,
      String.eqb (method again) "POST" = false ->
      has_perm (user again) "circuits.change_circuit" = true ->
      rerenders_empty_form (fst (respond (termination_add again pk) w')).
Proof.
  intros Hpost Hperm Hc Hvalid form. unfold respond.
  rewrite (termination_add_allowed _ _ _ Hperm).
  rewrite (termination_add_body_valid _ _ _ _ Hc Hpost Hvalid).
  rewrite (find_circuit_pk _ _ _ Hc). unfold redirect.
  split; [now destruct (contains_key "_addanother" (POST request)) |].
  split; [reflexivity |].
  intros again Hget Hagain.
  rewrite (termination_add_allowed _ _ _ Hagain).
  rewrite (termination_add_body_get again pk _ c); [| exact Hc | exact Hget].
  cbn. unfold rerenders_empty_form. eexists _, _. split; reflexivity.
Qed.

(** C2, as the code has it.  On every write route of the module (the
    thirteen classes, which all list PermissionRequiredMixin first and name
    a permission, termination add and termination delete), a caller who
    lacks the permission the route requires is answered by a redirect to
    the login page, not by Forbidden: [raise_exception] is left at its
    default everywhere.  The handler behind the gate does not run, so the
    store is not accessed (the trace is unchanged), the store is unchanged
    and its row count is the same before and after. *)
Theorem write_route_redirects_to_login
        (r : WriteRoute) (request : Request) (w : World) :
  module_route r ->
  (exists perm, route_permission r = Some perm)
  /\ forall perm,
      route_permission r = Some perm ->
      has_perm (user request) perm = false ->
      let (response, w') :=
        respond (Views.serve has_perm (no_permission raise_exception)
                             TerminationForm_full_clean
                             ConfirmationForm_full_clean
                             Termination_str Circuit_str generic_view
                             r request) w in
      response = LoginRedirect (path request)
      /\ response <> Forbidden
      /\ trace w' = trace w
      /\ store w' = store w
      /\ row_count (store w') = row_count (store w).
Proof.
  intros Hroute.
  assert (Hdone : forall m : M Response,
             m w = (Return (LoginRedirect (path request)), w) ->
             let (response, w') := respond m w in
             response = LoginRedirect (path request)
             /\ response <> Forbidden
             /\ trace w' = trace w
             /\ store w' = store w
             /\ row_count (store w') = row_count (store w)).
  { intros m Hm. unfold respond. rewrite Hm.
    repeat split; try reflexivity. discriminate. }
  destruct r as [v kwargs | pk | pk]; cbn in Hroute.
  - repeat (destruct Hroute as [<- | Hroute]);
      try (split; [eexists; reflexivity |];
           intros perm [= <-] Hdenied; apply Hdone;
           cbn; now rewrite Hdenied).
    destruct Hroute.
  - split; [eexists; reflexivity |].
    intros perm [= <-] Hdenied. apply Hdone.
    cbn. unfold Views.termination_add, permission_required.
    now rewrite Hdenied.
  - split; [eexists; reflexivity |].
    intros perm [= <-] Hdenied. apply Hdone.
    cbn. unfold Views.termination_delete, permission_required.
    now rewrite Hdenied.
Qed.

(** C3. A detail view asked for an identifier that matches no row (the
    provider page for an unknown slug, the circuit page for an unknown
    pk) answers NotFound (404); it has only read the store, which is
    unchanged. *)
Theorem detail_view_not_found (request : Request) (w : World) :
  (forall slug,
      find_provider slug (store w) = None ->
      respond (provider request slug) w
      = (Http404,
         mkWorld (store w) (trace w ++ [Select TProvider]) (messages w)))
  /\ (forall pk,
         find_circuit pk (store w) = None ->
         respond (circuit request pk) w
         = (Http404,
            mkWorld (store w) (trace w ++ [Select TCircuit]) (messages w))).
Proof.
  split; intros k Hnone.
  - unfold respond, Views.provider, bind at 1. now step_missing Hnone.
  - unfold respond, circuit, bind at 1. now step_missing Hnone.
Qed.


(** C7, as the code has it.  The provider detail view fetches the provider,
    whether any graph of the provider type is configured, and (when the
    page renders) the provider's circuits, and shows the three; the circuit
    detail view fetches the circuit and shows only it.  Both only read: the
    store is unchanged. *)
Theorem detail_views_found (request : Request) (w : World) :
  (forall slug p,
      find_provider slug (store w) = Some p ->
      respond (provider request slug) w
      = (Render "circuits/provider.html"
                [("provider", VProvider p);
                 ("circuits",
                  VCircuits (filter (fun c => circuit_provider c
                                              =? provider_pk p)
                                    (circuits (store w))));
                 ("show_graphs",
                  VBool (existsb (fun g => graph_type g
                                           =? GRAPH_TYPE_PROVIDER)
                                 (graphs (store w))))],
         after_events w [Select TProvider; Select TGraph; Select TCircuit]))
  /\ (forall pk c,
         find_circuit pk (store w) = Some c ->
         respond (circuit request pk) w
         = (Render "circuits/circuit.html" [("circuit", VCircuit c)],
            after_events w [Select TCircuit])).
Proof.
  split.
  - intros slug p Hp. unfold respond, Views.provider, bind at 1.
    step_found Hp.
    unfold Circuit_filter_provider, Graph_filter_type_exists, bind, record,
      get_store, ret, after_events. cbn. now rewrite <- !app_assoc.
  - intros pk c Hc. unfold respond, circuit, bind at 1. now step_found Hc.
Qed.

(** C9. A request to termination add, POST included, whose pk matches no
    circuit is answered NotFound right after the circuit lookup: the form
    is never cleaned (no FormClean event), nothing is inserted and the
    terminations are the same.  This is what the handler under the gate
    does, hence what the route does for a caller who passes the gate. *)
Theorem termination_add_unknown_circuit
        (request : Request) (pk : Z) (w : World) :
  find_circuit pk (store w) = None ->
  respond (termination_add_body request pk) w
  = (Http404, mkWorld (store w) (trace w ++ [Select TCircuit]) (messages w))
  /\ (has_perm (user request) "circuits.change_circuit" = true ->
      respond (termination_add request pk) w
      = (Http404,
         mkWorld (store w) (trace w ++ [Select TCircuit]) (messages w))).
Proof.
  intros Hnone.
  assert (Hbody : respond (termination_add_body request pk) w
                  = (Http404, mkWorld (store w) (trace w ++ [Select TCircuit])
                                      (messages w))).
  { unfold respond, Views.termination_add_body, bind at 1.
    now step_missing Hnone. }
  split; [exact Hbody |].
  intros Hperm. unfold Views.termination_add, permission_required.
  rewrite Hperm. exact Hbody.
Qed.

(** C10. In termination_add the inner test [if not form.errors] never
    fails once [form.is_valid()] has held, so the handler and the handler
    without that test are the same function: same response, same world,
    on every request. *)
Theorem termination_add_inner_guard_redundant
        (request : Request) (pk : Z) (w : World) :
  termination_add request pk w = termination_add_unguarded request pk w.
Proof.
  unfold Views.termination_add, Views.termination_add_unguarded,
    permission_required.
  destruct (has_perm (user request) "circuits.change_circuit");
    [| reflexivity].
  unfold Views.termination_add_body,
    Views.termination_add_unguarded_body.
  apply bind_ext. intros c w1.
  destruct (String.eqb (method request) "POST"); [| reflexivity].
  unfold form_is_valid. rewrite !bind_bind.
  apply bind_ext. intros [] w2. rewrite !bind_ret.
  destruct (is_valid (TerminationForm (Some (POST request)))) eqn:Hvalid;
    [| reflexivity].
  now rewrite (is_valid_no_errors _ Hvalid).
Qed.

End Correctness.

(** ** Annotated querysets *)

Section AnnotateFacts.

Context {P C : Type}.
Variable pk : P -> Z.
Variable fk : C -> option Z.

Lemma group_keys_incl (l : list P) (x : P) :
  In x (group_keys pk l) -> In x l.
Proof.
  induction l as [| p l IH]; cbn; [tauto |].
  intros [-> | Hx]; [now left |].
  right. apply IH. apply filter_In in Hx. tauto.
Qed.

Lemma group_keys_run (p : P) (same rest : list P) :
  (forall q, In q same -> q = p) ->
  (forall q, In q rest -> (pk q =? pk p) = false) ->
  group_keys pk (p :: same ++ rest) = p :: group_keys pk rest.
Proof.
  intros Hsame Hrest. induction same as [| a same IH].
  - cbn. f_equal. apply filter_keeps_all. intros x Hx.
    apply group_keys_incl in Hx. now rewrite (Hrest x Hx).
  - rewrite (Hsame a (or_introl eq_refl)) in *.
    change (group_keys pk (p :: (p :: same) ++ rest))
      with (p :: filter (fun q => negb (pk q =? pk p))
                        (group_keys pk (p :: same ++ rest))).
    rewrite IH by (intros q Hq; apply Hsame; now right).
    cbn. rewrite Z.eqb_refl. cbn. f_equal.
    apply filter_keeps_all. intros x Hx.
    apply group_keys_incl in Hx. now rewrite (Hrest x Hx).
Qed.

Lemma joined_rows_parent (p : P) (cs : list C) (r : P * option C) :
  In r (joined_rows pk fk p cs) -> fst r = p.
Proof.
  unfold joined_rows. destruct (related pk fk p cs) as [| c m];
    [intros [<- | []]; reflexivity |].
  intros Hr. apply in_map_iff in Hr. destruct Hr as (x & <- & _).
  reflexivity.
Qed.

Lemma joined_rows_keys (p : P) (cs : list C) :
  exists same, map fst (joined_rows pk fk p cs) = p :: same
               /\ forall q, In q same -> q = p.
Proof.
  unfold joined_rows. destruct (related pk fk p cs) as [| c m].
  - exists []. split; [reflexivity | intros q []].
  - exists (map (fun _ => p) m). split.
    + cbn. f_equal. rewrite map_map. reflexivity.
    + intros q Hq. apply in_map_iff in Hq. now destruct Hq as (x & <- & _).
Qed.

Lemma joined_rows_count (p : P) (cs : list C) :
  Count (joined_rows pk fk p cs) = List.length (related pk fk p cs).
Proof.
  unfold joined_rows. destruct (related pk fk p cs) as [| c m]; [reflexivity |].
  unfold Count. rewrite filter_keeps_all.
  - now rewrite length_map.
  - intros r Hr. apply in_map_iff in Hr. now destruct Hr as (x & <- & _).
Qed.

Lemma left_outer_join_keys (ps : list P) (cs : list C) (r : P * option C) :
  In r (left_outer_join pk fk ps cs) -> In (fst r) ps.
Proof.
  unfold left_outer_join. intros Hr. apply in_flat_map in Hr.
  destruct Hr as (p & Hp & Hr). now rewrite (joined_rows_parent _ _ _ Hr).
Qed.

Lemma other_key (p : P) (ps : list P) (q : P) :
  ~ In (pk p) (map pk ps) -> In q ps -> (pk q =? pk p) = false.
Proof.
  intros Hfresh Hq. apply Z.eqb_neq. intros Heq. apply Hfresh.
  rewrite <- Heq. now apply in_map.
Qed.

Lemma group_keys_of_join (ps : list P) (cs : list C) :
  NoDup (map pk ps) ->
  group_keys pk (map fst (left_outer_join pk fk ps cs)) = ps.
Proof.
  induction ps as [| p ps IH]; intros Hnodup; [reflexivity |].
  inversion Hnodup as [| k ks Hfresh Hrest]; subst.
  change (left_outer_join pk fk (p :: ps) cs)
    with (joined_rows pk fk p cs ++ left_outer_join pk fk ps cs).
  rewrite map_app. destruct (joined_rows_keys p cs) as (same & -> & Hsame).
  cbn [app]. rewrite group_keys_run; [now rewrite IH | exact Hsame |].
  intros q Hq. apply in_map_iff in Hq. destruct Hq as (r & <- & Hr).
  apply (other_key p ps); [exact Hfresh |].
  now apply (left_outer_join_keys ps cs).
Qed.

Lemma group_of_join (ps : list P) (cs : list C) (p : P) :
  NoDup (map pk ps) ->
  In p ps ->
  filter (fun r => pk (fst r) =? pk p) (left_outer_join pk fk ps cs)
  = joined_rows pk fk p cs.
Proof.
  induction ps as [| p0 ps IH]; intros Hnodup Hp; [destruct Hp |].
  inversion Hnodup as [| k ks Hfresh Hrest]; subst.
  change (left_outer_join pk fk (p0 :: ps) cs)
    with (joined_rows pk fk p0 cs ++ left_outer_join pk fk ps cs).
  rewrite filter_app. destruct Hp as [-> | Hp].
  - rewrite filter_keeps_all.
    + rewrite filter_drops_all; [apply app_nil_r |].
      intros r Hr. apply (other_key p ps); [exact Hfresh |].
      now apply (left_outer_join_keys ps cs).
    + intros r Hr. rewrite (joined_rows_parent _ _ _ Hr). apply Z.eqb_refl.
  - rewrite filter_drops_all.
    + now rewrite IH.
    + intros r Hr. rewrite (joined_rows_parent _ _ _ Hr).
      rewrite Z.eqb_sym. now apply (other_key p0 ps).
Qed.

Lemma annotate_count_spec (ps : list P) (cs : list C) :
  NoDup (map pk ps) ->
  annotate_count pk fk ps cs
  = map (fun p => (p, List.length (related pk fk p cs))) ps.
Proof.
  intros Hnodup. unfold annotate_count.
  rewrite group_keys_of_join by exact Hnodup.
  apply map_ext_in. intros p Hp.
  now rewrite group_of_join, joined_rows_count.
Qed.

End AnnotateFacts.

(** C8. The list views' querysets carry the derived child counts: the
    provider list has one row per provider, annotated with the number of
    circuits whose provider it is, and the circuit list one row per
    circuit, annotated with the number of terminations whose circuit it
    is (primary keys being unique). *)
Theorem list_views_annotate_child_counts (s : Store) :
  NoDup (map provider_pk (providers s)) ->
  NoDup (map circuit_pk (circuits s)) ->
  ProviderListView_queryset s
  = map (fun p =>
           (p, List.length (filter (fun c => circuit_provider c
                                             =? provider_pk p)
                                   (circuits s))))
        (providers s)
  /\ CircuitListView_queryset s
     = map (fun c =>
              (c, List.length
                    (filter (fun t => option_Z_eqb (termination_circuit t)
                                                   (Some (circuit_pk c)))
                            (terminations s))))
           (circuits s).
Proof.
  intros Hproviders Hcircuits. split.
  - unfold ProviderListView_queryset.
    now rewrite annotate_count_spec.
  - unfold CircuitListView_queryset.
    now rewrite annotate_count_spec.
Qed.

(** * Further behaviour of the handlers *)

Lemma find_circuit_with_terminations (k : Z) (s : Store)
      (ts : list Termination) :
  find_circuit k (with_terminations s ts) = find_circuit k s.
Proof. reflexivity. Qed.

Lemma find_circuit_with_termination (k : Z) (s : Store) (t : Termination) :
  find_circuit k (with_termination s t) = find_circuit k s.
Proof. reflexivity. Qed.

Lemma find_termination_pk (pk : Z) (s : Store) (t : Termination) :
  find_termination pk s = Some t ->
  In t (terminations s) /\ termination_pk t = Some pk.
Proof.
  unfold find_termination. intros H. apply find_some in H.
  destruct H as [Hin Hkey]. split; [exact Hin |].
  now apply option_Z_eqb_eq.
Qed.

Lemma without_pk_incl (pk : Z) (ts : list Termination) (t : Termination) :
  In t (without_pk pk ts) -> In t ts.
Proof. unfold without_pk. intros H. apply filter_In in H. tauto. Qed.

Lemma without_pk_keys (pk : Z) (ts : list Termination) :
  NoDup (map termination_pk ts) ->
  NoDup (map termination_pk (without_pk pk ts)).
Proof.
  induction ts as [| r ts IH]; cbn; intros Hnodup; [constructor |].
  inversion Hnodup as [| k ks Hfresh Hrest]; subst.
  destruct (negb (option_Z_eqb (termination_pk r) (Some pk))); cbn.
  - constructor; [| now apply IH].
    intros Hin. apply Hfresh. apply in_map_iff in Hin.
    destruct Hin as (x & Hx & Hin). apply in_map_iff. exists x.
    split; [exact Hx | now apply (without_pk_incl pk)].
  - now apply IH.
Qed.

Lemma find_without_pk (pk : Z) (ts : list Termination) :
  find (fun t => option_Z_eqb (termination_pk t) (Some pk)) (without_pk pk ts)
  = None.
Proof.
  induction ts as [| r ts IH]; cbn; [reflexivity |].
  destruct (option_Z_eqb (termination_pk r) (Some pk)) eqn:Hr; cbn;
    [exact IH |].
  now rewrite Hr.
Qed.

Lemma find_fresh_key (ts : list Termination) (t : Termination) (k : Z) :
  (forall r, In r ts -> termination_pk r <> Some k) ->
  termination_pk t = Some k ->
  find (fun r => option_Z_eqb (termination_pk r) (Some k)) (ts ++ [t])
  = Some t.
Proof.
  intros Hfresh Ht. induction ts as [| r ts IH]; cbn.
  - now rewrite Ht, option_Z_eqb_refl.
  - destruct (option_Z_eqb (termination_pk r) (Some k)) eqn:Hr.
    + apply option_Z_eqb_eq in Hr. now destruct (Hfresh r (or_introl eq_refl)).
    + apply IH. intros x Hx. apply Hfresh. now right.
Qed.

Lemma without_fresh_key (ts : list Termination) (t : Termination) (k : Z) :
  (forall r, In r ts -> termination_pk r <> Some k) ->
  termination_pk t = Some k ->
  without_pk k (ts ++ [t]) = ts.
Proof.
  intros Hfresh Ht. unfold without_pk. rewrite filter_app. cbn.
  rewrite Ht. cbn. rewrite Z.eqb_refl. cbn. rewrite app_nil_r.
  apply filter_keeps_all. intros r Hr. apply negb_true_iff.
  destruct (option_Z_eqb (termination_pk r) (Some k)) eqn:Hkey;
    [| reflexivity].
  apply option_Z_eqb_eq in Hkey. now destruct (Hfresh r Hr).
Qed.

Lemma issued_keys_fresh (s : Store) :
  keys_issued s ->
  forall r, In r (terminations s) ->
            termination_pk r <> Some (termination_seq s).
Proof.
  intros Hissued r Hr Heq. destruct (Hissued r Hr) as (k & Hk & Hlt).
  rewrite Hk in Heq. injection Heq as ->. lia.
Qed.

Lemma store_ok_with_termination (s : Store) (form : Form) (pk : Z)
      (c : Circuit) :
  store_ok s ->
  find_circuit pk s = Some c ->
  store_ok (with_termination s (created_termination s form c)).
Proof.
  intros (Hunique & Hissued & Hexist) Hc. repeat split.
  - unfold keys_unique in *. cbn. rewrite map_app. cbn.
    apply NoDup_app; [exact Hunique | repeat constructor; intros [] |].
    intros key Hkey [<- | []]. apply in_map_iff in Hkey.
    destruct Hkey as (r & Hr & Hin).
    now apply (issued_keys_fresh s Hissued r Hin).
  - intros t Ht. cbn in Ht. apply in_app_or in Ht.
    destruct Ht as [Ht | [<- | []]].
    + destruct (Hissued t Ht) as (k & Hk & Hlt). exists k.
      split; [exact Hk | cbn; lia].
    + exists (termination_seq s). split; [reflexivity | cbn; lia].
  - intros t Ht. cbn in Ht. apply in_app_or in Ht.
    destruct Ht as [Ht | [<- | []]].
    + destruct (Hexist t Ht) as (k & c' & Hk & Hc').
      exists k, c'. now rewrite find_circuit_with_termination.
    + exists (circuit_pk c), c. rewrite find_circuit_with_termination.
      split; [reflexivity |]. now rewrite (find_circuit_pk _ _ _ Hc).
Qed.

Lemma store_ok_without_pk (s : Store) (pk : Z) :
  store_ok s ->
  store_ok (with_terminations s (without_pk pk (terminations s))).
Proof.
  intros (Hunique & Hissued & Hexist). repeat split.
  - unfold keys_unique in *. cbn. now apply without_pk_keys.
  - intros t Ht. cbn in Ht. apply without_pk_incl in Ht.
    exact (Hissued t Ht).
  - intros t Ht. cbn in Ht. apply without_pk_incl in Ht.
    destruct (Hexist t Ht) as (k & c & Hk & Hc).
    exists k, c. now rewrite find_circuit_with_terminations.
Qed.

(** ** Counting through the join *)

Section AnnotateSums.

Context {P C : Type}.
Variable pk : P -> Z.
Variable fk : C -> option Z.

Lemma related_app (p : P) (cs : list C) (c : C) :
  related pk fk p (cs ++ [c])
  = related pk fk p cs
    ++ (if option_Z_eqb (fk c) (Some (pk p)) then [c] else []).
Proof. unfold related. now rewrite filter_app. Qed.

Lemma list_sum_step (n : nat) (l : list nat) :
  list_sum (n :: l) = (n + list_sum l)%nat.
Proof. reflexivity. Qed.

Lemma list_sum_pointwise (f g : P -> nat) (ps : list P) :
  list_sum (map (fun p => (f p + g p)%nat) ps)
  = (list_sum (map f ps) + list_sum (map g ps))%nat.
Proof.
  induction ps as [| p ps IH]; [reflexivity |].
  cbn [map]. rewrite !list_sum_step, IH. lia.
Qed.

Lemma no_parent_hit (k : Z) (ps : list P) :
  ~ In k (map pk ps) ->
  list_sum (map (fun p => if k =? pk p then 1%nat else 0%nat) ps) = 0%nat.
Proof.
  induction ps as [| p ps IH]; intros Hfresh; [reflexivity |].
  cbn [map] in *. rewrite list_sum_step.
  destruct (k =? pk p) eqn:Hk.
  - apply Z.eqb_eq in Hk. exfalso. apply Hfresh. now left.
  - apply IH. intros Hin. apply Hfresh. now right.
Qed.

Lemma one_parent_hit (p0 : P) (ps : list P) :
  NoDup (map pk ps) ->
  In p0 ps ->
  list_sum (map (fun p => if pk p0 =? pk p then 1%nat else 0%nat) ps)
  = 1%nat.
Proof.
  induction ps as [| p ps IH]; intros Hnodup Hin; [destruct Hin |].
  cbn [map] in *. rewrite list_sum_step.
  inversion Hnodup as [| k ks Hfresh Hrest]; subst.
  destruct Hin as [-> | Hin].
  - rewrite Z.eqb_refl, no_parent_hit by exact Hfresh. reflexivity.
  - rewrite (IH Hrest Hin).
    destruct (pk p0 =? pk p) eqn:Hk; [| reflexivity].
    apply Z.eqb_eq in Hk. exfalso. apply Hfresh. rewrite <- Hk.
    now apply in_map.
Qed.

(** With unique parent keys and no dangling foreign key, every child is
    counted once, under its parent. *)
Lemma related_counts_sum (ps : list P) (cs : list C) :
  NoDup (map pk ps) ->
  (forall c, In c cs -> exists p, In p ps /\ fk c = Some (pk p)) ->
  list_sum (map (fun p => List.length (related pk fk p cs)) ps)
  = List.length cs.
Proof.
  intros Hnodup. induction cs as [| c cs IH]; intros Hparents.
  - clear Hnodup. induction ps as [| p ps IHps]; [reflexivity |].
    cbn [map]. now rewrite list_sum_step, IHps.
  - destruct (Hparents c (or_introl eq_refl)) as (p0 & Hp0 & Hfk).
    rewrite (map_ext
               (fun p => List.length (related pk fk p (c :: cs)))
               (fun p => ((if (pk p0 =? pk p)%Z then 1 else 0)
                          + List.length (related pk fk p cs))%nat)).
    + rewrite (list_sum_pointwise
                 (fun p => if pk p0 =? pk p then 1%nat else 0%nat)
                 (fun p => List.length (related pk fk p cs))).
      rewrite (one_parent_hit p0 ps Hnodup Hp0).
      rewrite IH; [reflexivity |].
      intros x Hx. apply Hparents. now right.
    + intros p. unfold related. cbn. rewrite Hfk. cbn.
      now destruct (pk p0 =? pk p).
Qed.

End AnnotateSums.

Section Behaviour.

Variable has_perm : string -> string -> bool.
Variable handle_no_permission : Request -> Response.
Variable TerminationForm_full_clean : QueryDict -> ErrorDict * Cleaned.
Variable ConfirmationForm_full_clean : QueryDict -> ErrorDict.
Variable Termination_str : Termination -> string.
Variable Circuit_str : Circuit -> string.
Variable GRAPH_TYPE_PROVIDER : Z.

Local Abbreviation termination_add :=
  (Views.termination_add has_perm handle_no_permission
                         TerminationForm_full_clean).
Local Abbreviation termination_add_body :=
  (Views.termination_add_body TerminationForm_full_clean).
Local Abbreviation termination_delete :=
  (Views.termination_delete has_perm handle_no_permission
                            ConfirmationForm_full_clean
                            Termination_str Circuit_str).
Local Abbreviation termination_delete_body :=
  (Views.termination_delete_body ConfirmationForm_full_clean
                                 Termination_str Circuit_str).
Local Abbreviation TerminationForm :=
  (Views.TerminationForm TerminationForm_full_clean).
Local Abbreviation ConfirmationForm :=
  (Views.ConfirmationForm ConfirmationForm_full_clean).
Local Abbreviation deleted_notice :=
  (Views.deleted_notice Termination_str Circuit_str).
Local Abbreviation provider := (Views.provider GRAPH_TYPE_PROVIDER).

Lemma termination_delete_allowed (request : Request) (pk : Z) (w : World) :
  has_perm (user request) "circuits.delete_circuit" = true ->
  termination_delete request pk w = termination_delete_body request pk w.
Proof.
  intros Hperm. unfold Views.termination_delete, permission_required.
  now rewrite Hperm.
Qed.

Lemma ConfirmationForm_class (posted : option QueryDict) :
  form_class (ConfirmationForm posted) = "ConfirmationForm".
Proof. now destruct posted. Qed.

Lemma Termination_circuit_found (t : Termination) (k : Z) (c : Circuit)
      (w : World) :
  termination_circuit t = Some k ->
  find_circuit k (store w) = Some c ->
  Termination_circuit t w = (Return c, after_events w [Select TCircuit]).
Proof.
  intros Hk Hc. unfold Termination_circuit, bind, record, get_store. cbn.
  now rewrite Hk, Hc.
Qed.

Lemma termination_delete_body_missing (request : Request) (pk : Z)
      (w : World) :
  find_termination pk (store w) = None ->
  termination_delete_body request pk w
  = (Raise Http404, after_events w [Select TTermination]).
Proof.
  intros Hnone. unfold Views.termination_delete_body, bind at 1.
  now step_missing Hnone.
Qed.

Lemma termination_delete_body_get (request : Request) (pk : Z) (w : World)
      (t : Termination) (k : Z) (c : Circuit) :
  find_termination pk (store w) = Some t ->
  termination_circuit t = Some k ->
  find_circuit k (store w) = Some c ->
  String.eqb (method request) "POST" = false ->
  termination_delete_body request pk w
  = (Return (render_termination_delete t (ConfirmationForm None) c),
     after_events w [Select TTermination; Select TCircuit]).
Proof.
  intros Ht Hk Hc Hget. unfold Views.termination_delete_body, bind at 1.
  step_found Ht. rewrite Hget. unfold bind.
  rewrite (Termination_circuit_found t k c); [| exact Hk | exact Hc].
  unfold ret, after_events. cbn. now rewrite <- app_assoc.
Qed.

Lemma termination_delete_body_invalid (request : Request) (pk : Z)
      (w : World) (t : Termination) (k : Z) (c : Circuit) :
  find_termination pk (store w) = Some t ->
  termination_circuit t = Some k ->
  find_circuit k (store w) = Some c ->
  String.eqb (method request) "POST" = true ->
  is_valid (ConfirmationForm (Some (POST request))) = false ->
  termination_delete_body request pk w
  = (Return (render_termination_delete
               t (ConfirmationForm (Some (POST request))) c),
     after_events w [Select TTermination; FormClean "ConfirmationForm";
                     Select TCircuit]).
Proof.
  intros Ht Hk Hc Hpost Hinvalid. unfold Views.termination_delete_body.
  set (form := ConfirmationForm (Some (POST request))) in *.
  assert (Hcls : form_class form = "ConfirmationForm") by reflexivity.
  clearbody form.
  unfold bind at 1. step_found Ht. rewrite Hpost.
  unfold form_is_valid, bind at 1 2, record, ret. cbn.
  rewrite Hinvalid, Hcls. unfold bind.
  rewrite (Termination_circuit_found t k c); [| exact Hk | exact Hc].
  unfold after_events. cbn. now rewrite <- !app_assoc.
Qed.

Lemma termination_delete_body_valid (request : Request) (pk : Z)
      (w : World) (t : Termination) (k : Z) (c : Circuit) :
  find_termination pk (store w) = Some t ->
  termination_circuit t = Some k ->
  find_circuit k (store w) = Some c ->
  String.eqb (method request) "POST" = true ->
  is_valid (ConfirmationForm (Some (POST request))) = true ->
  termination_delete_body request pk w
  = (Return (redirect "circuits:circuit" (circuit_pk c)),
     mkWorld (with_terminations (store w)
                                (without_pk pk (terminations (store w))))
             (trace w ++ [Select TTermination; FormClean "ConfirmationForm";
                          Delete TTermination; Select TCircuit])
             (messages w ++ [deleted_notice (without_key t) c])).
Proof.
  intros Ht Hk Hc Hpost Hvalid. unfold Views.termination_delete_body.
  destruct (find_termination_pk _ _ _ Ht) as [_ Hkey].
  set (form := ConfirmationForm (Some (POST request))) in *.
  assert (Hcls : form_class form = "ConfirmationForm") by reflexivity.
  clearbody form.
  unfold bind at 1. step_found Ht. rewrite Hpost.
  unfold form_is_valid, bind at 1 2, record, ret. cbn.
  rewrite Hvalid, Hcls.
  unfold Termination_delete, Termination_circuit, messages_success,
    bind, record, get_store, put_store, ret. cbn.
  rewrite Hk, Hkey. unfold find_circuit in *. cbn. rewrite Hc. cbn.
  unfold with_terminations, without_pk. now rewrite <- !app_assoc.
Qed.

Lemma termination_add_body_missing (request : Request) (pk : Z)
      (w : World) :
  find_circuit pk (store w) = None ->
  termination_add_body request pk w
  = (Raise Http404, after_events w [Select TCircuit]).
Proof.
  intros Hnone. unfold Views.termination_add_body, bind at 1.
  now step_missing Hnone.
Qed.

(** Every run of [termination_add]: nothing but at most one appended row. *)
Lemma termination_add_cases (request : Request) (pk : Z) (w : World) :
  let form := TerminationForm (Some (POST request)) in
  let w' := snd (respond (termination_add request pk) w) in
  messages w' = messages w
  /\ (store w' = store w
      \/ exists c,
        find_circuit pk (store w) = Some c
        /\ store w' = with_termination (store w)
                                       (created_termination (store w) form c)
        /\ String.eqb (method request) "POST" = true
        /\ has_perm (user request) "circuits.change_circuit" = true
        /\ is_valid form = true).
Proof.
  intros form w'. subst w'. unfold respond.
  destruct (has_perm (user request) "circuits.change_circuit") eqn:Hperm.
  - rewrite (termination_add_allowed _ _ _ _ _ _ Hperm).
    destruct (find_circuit pk (store w)) as [c |] eqn:Hc.
    + destruct (String.eqb (method request) "POST") eqn:Hpost.
      * destruct (is_valid form) eqn:Hvalid.
        -- rewrite (termination_add_body_valid _ _ _ _ _ Hc Hpost Hvalid).
           cbn. split; [reflexivity |]. right. exists c. now repeat split.
        -- rewrite (termination_add_body_invalid _ _ _ _ _ Hc Hpost Hvalid).
           cbn. now split; [| left].
      * rewrite (termination_add_body_get _ _ _ _ _ Hc Hpost).
        cbn. now split; [| left].
    + rewrite (termination_add_body_missing _ _ _ Hc).
      now split; [| left].
  - unfold Views.termination_add, permission_required. rewrite Hperm.
    cbn. now split; [| left].
Qed.

(** The run of [termination_delete] once the termination is found. *)
Lemma termination_delete_body_found (request : Request) (pk : Z)
      (w : World) (t : Termination) :
  find_termination pk (store w) = Some t ->
  termination_delete_body request pk w
  = let form := ConfirmationForm (Some (POST request)) in
    let looked := [Select TTermination] in
    let cleaned := [Select TTermination; FormClean "ConfirmationForm"] in
    if String.eqb (method request) "POST" then
      if is_valid form then
        let s' := with_terminations (store w)
                                    (without_pk pk (terminations (store w))) in
        let es := cleaned ++ [Delete TTermination; Select TCircuit] in
        match parent_of t (store w) with
        | Some c =>
          (Return (redirect "circuits:circuit" (circuit_pk c)),
           mkWorld s' (trace w ++ es)
                   (messages w ++ [deleted_notice (without_key t) c]))
        | None =>
          (Raise (ServerError "DoesNotExist"),
           mkWorld s' (trace w ++ es) (messages w))
        end
      else
        match parent_of t (store w) with
        | Some c =>
          (Return (render_termination_delete t form c),
           after_events w (cleaned ++ [Select TCircuit]))
        | None =>
          (Raise (ServerError "DoesNotExist"),
           after_events w (cleaned ++ [Select TCircuit]))
        end
    else
      match parent_of t (store w) with
      | Some c =>
        (Return (render_termination_delete t (ConfirmationForm None) c),
         after_events w (looked ++ [Select TCircuit]))
      | None =>
        (Raise (ServerError "DoesNotExist"),
         after_events w (looked ++ [Select TCircuit]))
      end.
Proof.
  intros Ht. destruct (find_termination_pk _ _ _ Ht) as [_ Hkey].
  unfold Views.termination_delete_body.
  set (form := ConfirmationForm (Some (POST request))) in *.
  assert (Hcls : form_class form = "ConfirmationForm") by reflexivity.
  clearbody form.
  unfold bind at 1. step_found Ht.
  unfold form_is_valid, Termination_delete, Termination_circuit,
    messages_success, bind, record, get_store, put_store, ret, raise,
    parent_of, find_circuit, after_events, with_terminations, without_pk.
  cbn. rewrite Hkey, Hcls.
  destruct (String.eqb (method request) "POST"); cbn;
    [destruct (is_valid form); cbn |];
    (destruct (termination_circuit t) as [k |]; cbn;
     [destruct (find (fun c : Circuit => circuit_pk c =? k)
                     (circuits (store w))) as [c |]; cbn |]);
    rewrite <- ?app_assoc; reflexivity.
Qed.

(** Every run of [termination_delete]: nothing but a DELETE by key, and at
    most one notice. *)
Lemma termination_delete_cases (request : Request) (pk : Z) (w : World) :
  let w' := snd (respond (termination_delete request pk) w) in
  (store w' = store w /\ messages w' = messages w)
  \/ (store w' = with_terminations (store w)
                                   (without_pk pk (terminations (store w)))
      /\ String.eqb (method request) "POST" = true
      /\ has_perm (user request) "circuits.delete_circuit" = true
      /\ is_valid (ConfirmationForm (Some (POST request))) = true
      /\ (messages w' = messages w
          \/ exists t c, messages w' = messages w ++ [deleted_notice t c])).
Proof.
  intros w'. subst w'. unfold respond.
  destruct (has_perm (user request) "circuits.delete_circuit") eqn:Hperm.
  - rewrite (termination_delete_allowed _ _ _ Hperm).
    destruct (find_termination pk (store w)) as [t |] eqn:Ht.
    + rewrite (termination_delete_body_found _ _ _ _ Ht). cbv zeta.
      destruct (String.eqb (method request) "POST");
        [destruct (is_valid (ConfirmationForm (Some (POST request)))) |];
        destruct (parent_of t (store w)) as [c |]; cbn;
        try (left; split; reflexivity);
        right; repeat (split; [reflexivity |]);
        try (left; reflexivity); right; now exists (without_key t), c.
    + rewrite (termination_delete_body_missing _ _ _ Ht). now left.
  - unfold Views.termination_delete, permission_required. rewrite Hperm.
    now left.
Qed.

(** X1. A request to termination delete, POST included, whose pk matches
    no termination is answered NotFound right after the lookup: no form is
    cleaned, nothing is deleted and no notice is queued. *)
Theorem termination_delete_unknown
        (request : Request) (pk : Z) (w : World) :
  find_termination pk (store w) = None ->
  respond (termination_delete_body request pk) w
  = (Http404, after_events w [Select TTermination])
  /\ (has_perm (user request) "circuits.delete_circuit" = true ->
      respond (termination_delete request pk) w
      = (Http404, after_events w [Select TTermination])).
Proof.
  intros Hnone.
  assert (Hbody : respond (termination_delete_body request pk) w
                  = (Http404, after_events w [Select TTermination])).
  { unfold respond. now rewrite (termination_delete_body_missing _ _ _ Hnone). }
  split; [exact Hbody |].
  intros Hperm. unfold respond in *.
  now rewrite (termination_delete_allowed _ _ _ Hperm).
Qed.

(** X2. Any request to termination delete that is not a POST only shows
    the confirmation page: the termination, a blank confirmation form and
    a cancel link to the parent circuit's page.  No form is cleaned,
    nothing is deleted, no notice is queued. *)
Theorem termination_delete_prompts
        (request : Request) (pk : Z) (w : World)
        (t : Termination) (k : Z) (c : Circuit) :
  String.eqb (method request) "POST" = false ->
  has_perm (user request) "circuits.delete_circuit" = true ->
  find_termination pk (store w) = Some t ->
  termination_circuit t = Some k ->
  find_circuit k (store w) = Some c ->
  respond (termination_delete request pk) w
  = (Render "circuits/termination_delete.html"
            [("termination", VTermination t);
             ("form", VForm (unbound_form "ConfirmationForm"));
             ("cancel_url", VUrl (reverse "circuits:circuit" (circuit_pk c)))],
     after_events w [Select TTermination; Select TCircuit]).
Proof.
  intros Hget Hperm Ht Hk Hc. unfold respond.
  rewrite (termination_delete_allowed _ _ _ Hperm).
  now rewrite (termination_delete_body_get _ _ _ _ _ _ Ht Hk Hc Hget).
Qed.

(** X3. A POST to termination delete whose confirmation form does not
    validate shows the confirmation page again with the bound form and its
    errors (at least one); the termination is still there and no notice is
    queued. *)
Theorem termination_delete_unconfirmed
        (request : Request) (pk : Z) (w : World)
        (t : Termination) (k : Z) (c : Circuit) :
  String.eqb (method request) "POST" = true ->
  has_perm (user request) "circuits.delete_circuit" = true ->
  find_termination pk (store w) = Some t ->
  termination_circuit t = Some k ->
  find_circuit k (store w) = Some c ->
  is_valid (ConfirmationForm (Some (POST request))) = false ->
  let form := ConfirmationForm (Some (POST request)) in
  let (response, w') := respond (termination_delete request pk) w in
  response = Render "circuits/termination_delete.html"
                    [("termination", VTermination t);
                     ("form", VForm form);
                     ("cancel_url",
                      VUrl (reverse "circuits:circuit" (circuit_pk c)))]
  /\ errors form <> []
  /\ store w' = store w
  /\ messages w' = messages w
  /\ find_termination pk (store w') = Some t.
Proof.
  intros Hpost Hperm Ht Hk Hc Hinvalid form. unfold respond.
  rewrite (termination_delete_allowed _ _ _ Hperm).
  rewrite (termination_delete_body_invalid _ _ _ _ _ _ Ht Hk Hc Hpost Hinvalid).
  cbn. repeat split; try assumption.
  intros Hempty. unfold is_valid in Hinvalid. cbn in Hinvalid.
  now rewrite Hempty in Hinvalid.
Qed.

(** X4. Whatever the request, termination delete leaves providers,
    circuits, graphs and the key sequence alone, and the terminations are
    either the same or the same minus the rows with key pk.  Rows go only
    on a POST with a valid confirmation from a caller holding
    [circuits.delete_circuit], and at most one notice is queued. *)
Theorem termination_delete_frame
        (request : Request) (pk : Z) (w : World) :
  let w' := snd (respond (termination_delete request pk) w) in
  providers (store w') = providers (store w)
  /\ circuits (store w') = circuits (store w)
  /\ graphs (store w') = graphs (store w)
  /\ termination_seq (store w') = termination_seq (store w)
  /\ ((terminations (store w') = terminations (store w)
       /\ messages w' = messages w)
      \/ (terminations (store w') = without_pk pk (terminations (store w))
          /\ String.eqb (method request) "POST" = true
          /\ has_perm (user request) "circuits.delete_circuit" = true
          /\ is_valid (ConfirmationForm (Some (POST request))) = true
          /\ exists notices, messages w' = messages w ++ notices
                             /\ (List.length notices <= 1)%nat)).
Proof.
  intros w'. destruct (termination_delete_cases request pk w)
    as [[Hstore Hmsg] | (Hstore & Hpost & Hperm & Hvalid & Hmsg)];
    fold w' in Hstore, Hmsg; rewrite Hstore.
  - repeat (split; [reflexivity |]). left. now split.
  - repeat (split; [reflexivity |]). right.
    repeat (split; [assumption || reflexivity |]).
    destruct Hmsg as [Hmsg | (t & c & Hmsg)]; rewrite Hmsg.
    + exists []. split; [now rewrite app_nil_r | cbn; lia].
    + exists [deleted_notice t c]. split; [reflexivity | cbn; lia].
Qed.

(** X5. Whatever the request, termination add leaves providers, circuits,
    graphs and the queued messages alone and never changes or removes an
    existing termination: the terminations are the same, or the same plus
    one appended row (and the key sequence moves on by one).  A row is
    appended only on a POST with a valid form from a caller holding
    [circuits.change_circuit]. *)
Theorem termination_add_frame
        (request : Request) (pk : Z) (w : World) :
  let w' := snd (respond (termination_add request pk) w) in
  providers (store w') = providers (store w)
  /\ circuits (store w') = circuits (store w)
  /\ graphs (store w') = graphs (store w)
  /\ messages w' = messages w
  /\ ((terminations (store w') = terminations (store w)
       /\ termination_seq (store w') = termination_seq (store w))
      \/ ((exists t, terminations (store w') = terminations (store w) ++ [t])
          /\ termination_seq (store w') = termination_seq (store w) + 1
          /\ String.eqb (method request) "POST" = true
          /\ has_perm (user request) "circuits.change_circuit" = true
          /\ is_valid (TerminationForm (Some (POST request))) = true)).
Proof.
  intros w'. destruct (termination_add_cases request pk w)
    as [Hmsg [Hstore | (c & Hc & Hstore & Hpost & Hperm & Hvalid)]];
    fold w' in Hstore, Hmsg; rewrite Hstore.
  - repeat (split; [reflexivity || assumption |]). left. now split.
  - repeat (split; [reflexivity || assumption |]). right.
    split; [eexists; reflexivity |]. now repeat split.
Qed.

(** X6. Any request to termination add that is not a POST only shows the
    form page: a blank form, the object type and a cancel link to circuit
    pk's page.  No form is cleaned and nothing is written. *)
Theorem termination_add_shows_blank_form
        (request : Request) (pk : Z) (w : World) (c : Circuit) :
  String.eqb (method request) "POST" = false ->
  has_perm (user request) "circuits.change_circuit" = true ->
  find_circuit pk (store w) = Some c ->
  respond (termination_add request pk) w
  = (Render "circuits/termination_edit.html"
            [("form", VForm (unbound_form "TerminationForm"));
             ("obj_type", VStr "Termination");
             ("cancel_url", VUrl (reverse "circuits:circuit" pk))],
     after_events w [Select TCircuit]).
Proof.
  intros Hget Hperm Hc. unfold respond.
  rewrite (termination_add_allowed _ _ _ _ _ _ Hperm).
  rewrite (termination_add_body_get _ _ _ _ _ Hc Hget).
  unfold render_termination_edit. now rewrite (find_circuit_pk _ _ _ Hc).
Qed.

(** X7. Termination add keeps the termination table sound: if primary keys
    are unique and below the key sequence and every row's circuit exists,
    the same holds after any request, whatever it was and whoever made
    it. *)
Theorem termination_add_keeps_store_ok
        (request : Request) (pk : Z) (w : World) :
  store_ok (store w) ->
  store_ok (store (snd (respond (termination_add request pk) w))).
Proof.
  intros Hok.
  destruct (termination_add_cases request pk w)
    as [_ [Hstore | (c & Hc & Hstore & _)]]; cbv zeta in Hstore;
    rewrite Hstore; [exact Hok |].
  now apply (store_ok_with_termination _ _ pk).
Qed.

(** X8. Termination delete keeps the termination table sound as well:
    unique keys below the sequence and existing circuits before any
    request give the same after it. *)
Theorem termination_delete_keeps_store_ok
        (request : Request) (pk : Z) (w : World) :
  store_ok (store w) ->
  store_ok (store (snd (respond (termination_delete request pk) w))).
Proof.
  intros Hok.
  destruct (termination_delete_cases request pk w)
    as [[Hstore _] | (Hstore & _)]; cbv zeta in Hstore;
    rewrite Hstore; [exact Hok |].
  now apply store_ok_without_pk.
Qed.

(** X9. After a valid POST to termination add for circuit pk, looking up
    the key the sequence stood at finds the new termination, and its
    circuit is pk (all earlier keys being below the sequence). *)
Theorem termination_add_then_lookup
        (request : Request) (pk : Z) (w : World) (c : Circuit) :
  String.eqb (method request) "POST" = true ->
  has_perm (user request) "circuits.change_circuit" = true ->
  find_circuit pk (store w) = Some c ->
  is_valid (TerminationForm (Some (POST request))) = true ->
  keys_issued (store w) ->
  let w' := snd (respond (termination_add request pk) w) in
  exists t,
    find_termination (termination_seq (store w)) (store w') = Some t
    /\ termination_circuit t = Some pk
    /\ termination_site t
       = termination_site (instance (TerminationForm (Some (POST request)))).
Proof.
  intros Hpost Hperm Hc Hvalid Hissued w'. subst w'. unfold respond.
  rewrite (termination_add_allowed _ _ _ _ _ _ Hperm).
  rewrite (termination_add_body_valid _ _ _ _ _ Hc Hpost Hvalid). cbn.
  eexists. split.
  - unfold find_termination. cbn.
    apply find_fresh_key; [now apply issued_keys_fresh | reflexivity].
  - cbn. now rewrite (find_circuit_pk _ _ _ Hc).
Qed.

(** X10. Adding a termination to circuit pk and then confirming the delete
    of the key it was given puts the terminations back as they were; the
    other tables never moved, and the delete redirects to circuit pk's
    page. *)
Theorem termination_add_then_delete
        (request undo : Request) (pk : Z) (w : World) (c : Circuit) :
  String.eqb (method request) "POST" = true ->
  has_perm (user request) "circuits.change_circuit" = true ->
  find_circuit pk (store w) = Some c ->
  is_valid (TerminationForm (Some (POST request))) = true ->
  keys_issued (store w) ->
  String.eqb (method undo) "POST" = true ->
  has_perm (user undo) "circuits.delete_circuit" = true ->
  is_valid (ConfirmationForm (Some (POST undo))) = true ->
  let w1 := snd (respond (termination_add request pk) w) in
  let (response, w2) :=
    respond (termination_delete undo (termination_seq (store w))) w1 in
  response = Redirect (reverse "circuits:circuit" pk)
  /\ terminations (store w2) = terminations (store w)
  /\ providers (store w2) = providers (store w)
  /\ circuits (store w2) = circuits (store w)
  /\ graphs (store w2) = graphs (store w).
Proof.
  intros Hpost Hperm Hc Hvalid Hissued Hpost' Hperm' Hvalid' w1. subst w1.
  pose proof (find_circuit_pk _ _ _ Hc) as Hpk.
  unfold respond at 2.
  rewrite (termination_add_allowed _ _ _ _ _ _ Hperm).
  rewrite (termination_add_body_valid _ _ _ _ _ Hc Hpost Hvalid).
  cbn [snd]. unfold respond.
  rewrite (termination_delete_allowed _ _ _ Hperm').
  set (form := TerminationForm (Some (POST request))) in *.
  set (w1 := mkWorld (with_termination
                        (store w) (created_termination (store w) form c))
                     (trace w ++ [Select TCircuit; FormClean "TerminationForm";
                                  Insert TTermination])
                     (messages w)).
  assert (Hnew : find_termination (termination_seq (store w)) (store w1)
                 = Some (created_termination (store w) form c)).
  { unfold find_termination. cbn.
    apply find_fresh_key; [now apply issued_keys_fresh | reflexivity]. }
  assert (Hparent : find_circuit (circuit_pk c) (store w1) = Some c).
  { subst w1. cbn [store]. rewrite find_circuit_with_termination.
    now rewrite Hpk. }
  rewrite (termination_delete_body_valid
             undo (termination_seq (store w)) w1
             (created_termination (store w) form c) (circuit_pk c) c
             Hnew eq_refl Hparent Hpost' Hvalid').
  cbn. rewrite Hpk. repeat split.
  apply without_fresh_key; [now apply issued_keys_fresh | reflexivity].
Qed.

(** X11. Once a termination delete has been confirmed, the termination is
    gone for good: any later request to delete the same pk, by a caller who
    passes the gate, is answered NotFound and changes nothing. *)
Theorem termination_delete_twice
        (request again : Request) (pk : Z) (w : World)
        (t : Termination) (k : Z) (c : Circuit) :
  String.eqb (method request) "POST" = true ->
  has_perm (user request) "circuits.delete_circuit" = true ->
  find_termination pk (store w) = Some t ->
  termination_circuit t = Some k ->
  find_circuit k (store w) = Some c ->
  is_valid (ConfirmationForm (Some (POST request))) = true ->
  has_perm (user again) "circuits.delete_circuit" = true ->
  let w1 := snd (respond (termination_delete request pk) w) in
  find_termination pk (store w1) = None
  /\ respond (termination_delete again pk) w1
     = (Http404, after_events w1 [Select TTermination]).
Proof.
  intros Hpost Hperm Ht Hk Hc Hvalid Hagain w1.
  assert (Hgone : find_termination pk (store w1) = None).
  { subst w1. unfold respond.
    rewrite (termination_delete_allowed _ _ _ Hperm).
    rewrite (termination_delete_body_valid _ _ _ _ _ _ Ht Hk Hc Hpost Hvalid).
    unfold find_termination. cbn. apply find_without_pk. }
  split; [exact Hgone |]. unfold respond.
  rewrite (termination_delete_allowed _ _ _ Hagain).
  now rewrite (termination_delete_body_missing _ _ _ Hgone).
Qed.

(** X12. After a valid POST to termination add for circuit pk, the circuit
    list shows one more termination for circuit pk and the same count for
    every other circuit (circuit keys being unique). *)
Theorem circuit_list_counts_new_termination
        (request : Request) (pk : Z) (w : World) (c : Circuit) :
  String.eqb (method request) "POST" = true ->
  has_perm (user request) "circuits.change_circuit" = true ->
  find_circuit pk (store w) = Some c ->
  is_valid (TerminationForm (Some (POST request))) = true ->
  NoDup (map circuit_pk (circuits (store w))) ->
  let w' := snd (respond (termination_add request pk) w) in
  CircuitListView_queryset (store w')
  = map (count_up pk) (CircuitListView_queryset (store w)).
Proof.
  intros Hpost Hperm Hc Hvalid Hnodup w'. subst w'. unfold respond.
  rewrite (termination_add_allowed _ _ _ _ _ _ Hperm).
  rewrite (termination_add_body_valid _ _ _ _ _ Hc Hpost Hvalid).
  pose proof (find_circuit_pk _ _ _ Hc) as Hpk.
  unfold CircuitListView_queryset. cbn [snd store with_termination circuits
                                        terminations].
  rewrite !annotate_count_spec by exact Hnodup.
  rewrite map_map. apply map_ext. intros c0.
  rewrite related_app, length_app. unfold count_up. cbn.
  rewrite Hpk, (Z.eqb_sym pk).
  destruct (circuit_pk c0 =? pk); cbn; [f_equal; lia | now rewrite Nat.add_0_r].
Qed.

(** X13. The circuits a provider's detail page lists are exactly the
    circuits of that provider, and their number is the count the provider
    list shows for it (provider keys being unique). *)
Theorem provider_detail_agrees_with_list
        (request : Request) (slug : string) (w : World) (p : Provider) :
  NoDup (map provider_pk (providers (store w))) ->
  find_provider slug (store w) = Some p ->
  exists template ctx cs,
    fst (respond (provider request slug) w) = Render template ctx
    /\ context_get "provider" ctx = Some (VProvider p)
    /\ context_get "circuits" ctx = Some (VCircuits cs)
    /\ (forall c, In c cs <-> In c (circuits (store w))
                              /\ circuit_provider c = provider_pk p)
    /\ In (p, List.length cs) (ProviderListView_queryset (store w)).
Proof.
  intros Hnodup Hp.
  assert (Hrun : fst (respond (provider request slug) w)
                 = Render "circuits/provider.html"
                          [("provider", VProvider p);
                           ("circuits",
                            VCircuits
                              (filter (fun c => circuit_provider c
                                                =? provider_pk p)
                                      (circuits (store w))));
                           ("show_graphs",
                            VBool (existsb (fun g => graph_type g
                                                     =? GRAPH_TYPE_PROVIDER)
                                           (graphs (store w))))]).
  { unfold respond, Views.provider, bind at 1. step_found Hp.
    reflexivity. }
  eexists _, _, _. split; [exact Hrun |].
  split; [reflexivity |]. split; [reflexivity |]. split.
  - intros c. rewrite filter_In, Z.eqb_eq. reflexivity.
  - unfold ProviderListView_queryset.
    rewrite annotate_count_spec by exact Hnodup.
    apply in_map_iff. exists p. split; [reflexivity |].
    unfold find_provider in Hp. now apply find_some in Hp.
Qed.

(** X15. After a confirmed termination delete, the circuit list shows one
    termination fewer for the parent circuit and the same count for every
    other circuit (termination keys and circuit keys being unique). *)
Theorem circuit_list_counts_deleted_termination
        (request : Request) (pk : Z) (w : World)
        (t : Termination) (k : Z) (c : Circuit) :
  String.eqb (method request) "POST" = true ->
  has_perm (user request) "circuits.delete_circuit" = true ->
  find_termination pk (store w) = Some t ->
  termination_circuit t = Some k ->
  find_circuit k (store w) = Some c ->
  is_valid (ConfirmationForm (Some (POST request))) = true ->
  keys_unique (store w) ->
  NoDup (map circuit_pk (circuits (store w))) ->
  let w' := snd (respond (termination_delete request pk) w) in
  CircuitListView_queryset (store w')
  = map (count_down k) (CircuitListView_queryset (store w)).
Proof.
  intros Hpost Hperm Ht Hk Hc Hvalid Hunique Hnodup w'. subst w'.
  unfold respond.
  rewrite (termination_delete_allowed _ _ _ Hperm).
  rewrite (termination_delete_body_valid _ _ _ _ _ _ Ht Hk Hc Hpost Hvalid).
  destruct (find_termination_pk _ _ _ Ht) as [_ Hkey].
  destruct (delete_by_pk_removes_one _ _ _ Hunique Ht)
    as (before & after & Hsplit & Hleft).
  rewrite Hkey in Hleft. fold (without_pk pk (terminations (store w))) in Hleft.
  unfold CircuitListView_queryset.
  cbn [snd store with_terminations circuits terminations].
  rewrite !annotate_count_spec by exact Hnodup.
  rewrite map_map. apply map_ext. intros c0.
  rewrite Hleft, Hsplit. unfold related, count_down.
  rewrite !filter_app. cbn. rewrite Hk. cbn. rewrite (Z.eqb_sym k).
  destruct (circuit_pk c0 =? k); cbn; [| reflexivity].
  f_equal. rewrite !length_app. cbn. lia.
Qed.

(** X16. Termination add never ends in an unhandled exception: the handler
    under the gate answers with the form page, a redirect or NotFound, on
    every request and every store.  In particular [form.save] is never
    reached with errors. *)
Theorem termination_add_never_fails
        (request : Request) (pk : Z) (w : World) (exception : string) :
  fst (respond (termination_add_body request pk) w) <> ServerError exception.
Proof.
  unfold respond.
  destruct (find_circuit pk (store w)) as [c |] eqn:Hc.
  - destruct (String.eqb (method request) "POST") eqn:Hpost.
    + destruct (is_valid (TerminationForm (Some (POST request)))) eqn:Hvalid.
      * rewrite (termination_add_body_valid _ _ _ _ _ Hc Hpost Hvalid). cbn.
        now destruct (contains_key "_addanother" (POST request)).
      * now rewrite (termination_add_body_invalid _ _ _ _ _ Hc Hpost Hvalid).
    + now rewrite (termination_add_body_get _ _ _ _ _ Hc Hpost).
  - now rewrite (termination_add_body_missing _ _ _ Hc).
Qed.

(** X17. When every termination's circuit exists, termination delete never
    ends in an unhandled exception either: the lookup of the parent
    circuit, made after the row is deleted, always succeeds. *)
Theorem termination_delete_never_fails
        (request : Request) (pk : Z) (w : World) (exception : string) :
  circuits_exist (store w) ->
  fst (respond (termination_delete_body request pk) w)
  <> ServerError exception.
Proof.
  intros Hexist. unfold respond.
  destruct (find_termination pk (store w)) as [t |] eqn:Ht.
  - rewrite (termination_delete_body_found _ _ _ _ Ht). cbv zeta.
    destruct (find_termination_pk _ _ _ Ht) as [Hin _].
    destruct (Hexist t Hin) as (k & c & Hk & Hc).
    assert (Hparent : parent_of t (store w) = Some c).
    { unfold parent_of. now rewrite Hk. }
    rewrite Hparent.
    destruct (String.eqb (method request) "POST");
      [destruct (is_valid (ConfirmationForm (Some (POST request)))) |];
      discriminate.
  - now rewrite (termination_delete_body_missing _ _ _ Ht).
Qed.

End Behaviour.

(** X14. Through the list views every child is counted exactly once: the
    circuit counts of the provider list add up to the number of circuits,
    and the termination counts of the circuit list to the number of
    terminations (keys being unique and no foreign key dangling). *)
Theorem list_view_counts_add_up (s : Store) :
  NoDup (map provider_pk (providers s)) ->
  providers_exist s ->
  NoDup (map circuit_pk (circuits s)) ->
  circuits_exist s ->
  list_sum (map snd (ProviderListView_queryset s)) = List.length (circuits s)
  /\ list_sum (map snd (CircuitListView_queryset s))
     = List.length (terminations s).
Proof.
  intros Hproviders Hparents Hcircuits Hexist. split.
  - unfold ProviderListView_queryset.
    rewrite annotate_count_spec by exact Hproviders.
    rewrite map_map. cbn [snd]. apply related_counts_sum; [exact Hproviders |].
    intros c Hc. destruct (Hparents c Hc) as (p & Hp & Hkey).
    exists p. split; [exact Hp | now rewrite Hkey].
  - unfold CircuitListView_queryset.
    rewrite annotate_count_spec by exact Hcircuits.
    rewrite map_map. cbn [snd]. apply related_counts_sum; [exact Hcircuits |].
    intros t Ht. destruct (Hexist t Ht) as (k & c & Hk & Hc).
    exists c. pose proof (find_circuit_pk _ _ _ Hc) as Hpk.
    unfold find_circuit in Hc. apply find_some in Hc.
    split; [tauto | now rewrite Hk, Hpk].
Qed.

(** * The handlers run on the sample installation *)

(** [mallory] holds no permission and posts an edit of provider acme: the
    answer is the login redirect, which is not Forbidden. *)
Lemma write_route_denial_is_not_forbidden :
  let request := Sample.post "mallory" [("name", "Acme Ltd")] in
  let route := ClassRoute ProviderEditView (mkKwargs None (Some "acme")) in
  let response :=
    fst (respond (serve Sample.deny (no_permission raise_exception)
                        Sample.clean_termination Sample.clean_confirmation
                        Sample.termination_name Sample.circuit_name
                        Sample.no_generic route request)
                 Sample.world) in
  route_permission route = Some "circuits.change_provider"
  /\ Sample.deny (user request) "circuits.change_provider" = false
  /\ response = LoginRedirect "/circuits/"
  /\ response <> Forbidden.
Proof.
  repeat (split; [reflexivity |]). discriminate.
Defined.

Lemma write_route_redirects_witness :
  let request := Sample.post "mallory" [("confirm", "on")] in
  let run :=
    respond (serve Sample.deny (no_permission raise_exception)
                   Sample.clean_termination Sample.clean_confirmation
                   Sample.termination_name Sample.circuit_name
                   Sample.no_generic (TerminationDelete 1) request)
            Sample.world in
  module_route (TerminationDelete 1)
  /\ route_permission (TerminationDelete 1) = Some "circuits.delete_circuit"
  /\ Sample.deny (user request) "circuits.delete_circuit" = false
  /\ fst run = LoginRedirect "/circuits/"
  /\ fst run <> Forbidden
  /\ trace (snd run) = []
  /\ store (snd run) = Sample.db
  /\ row_count (store (snd run)) = 6%nat.
Proof.
  split; [exact I |]. split; [reflexivity |]. split; [reflexivity |].
  exact (proj2 (write_route_redirects_to_login
                  Sample.deny Sample.clean_termination
                  Sample.clean_confirmation Sample.termination_name
                  Sample.circuit_name Sample.no_generic
                  (TerminationDelete 1)
                  (Sample.post "mallory" [("confirm", "on")])
                  Sample.world I)
               "circuits.delete_circuit" eq_refl eq_refl).
Defined.

Lemma detail_view_not_found_witness :
  find_provider "nobody" Sample.db = None
  /\ respond (provider 200 (Sample.get "alice") "nobody") Sample.world
     = (Http404, mkWorld Sample.db [Select TProvider] [])
  /\ find_circuit 99 Sample.db = None
  /\ respond (circuit (Sample.get "alice") 99) Sample.world
     = (Http404, mkWorld Sample.db [Select TCircuit] []).
Proof.
  split; [reflexivity |].
  split; [exact (proj1 (detail_view_not_found 200 (Sample.get "alice")
                                              Sample.world)
                       "nobody" eq_refl) |].
  split; [reflexivity |].
  exact (proj2 (detail_view_not_found 200 (Sample.get "alice") Sample.world)
               99 eq_refl).
Defined.

(** [alice] posts a valid form that names circuit 8 to the add page of
    circuit 7: the new row belongs to circuit 7. *)
Lemma termination_add_sets_circuit_witness :
  let request := Sample.post "alice" [("site", "12"); ("circuit", "8")] in
  let form := TerminationForm Sample.clean_termination
                              (Some (POST request)) in
  let w' := snd (respond (termination_add Sample.allow Sample.to_login
                                          Sample.clean_termination request 7)
                         Sample.world) in
  String.eqb (method request) "POST" = true
  /\ termination_circuit (instance form) = Some 8
  /\ terminations (store w')
     = [Sample.side_a; Sample.side_z; mkTermination (Some 3) (Some 7) 12].
Proof.
  split; [reflexivity |]. split; [reflexivity |].
  exact (proj1 (proj2 (termination_add_sets_circuit
                         Sample.allow Sample.to_login Sample.clean_termination
                         (Sample.post "alice"
                                      [("site", "12"); ("circuit", "8")])
                         7 Sample.world eq_refl)
                      Sample.link eq_refl eq_refl eq_refl)).
Defined.

(** [alice] posts a termination without the required site, and an edit of
    provider acme without the required name. *)
Lemma edit_invalid_witness :
  let request := Sample.post "alice" [("circuit", "8")] in
  let form := TerminationForm Sample.clean_termination
                              (Some (POST request)) in
  let run := respond (termination_add Sample.allow Sample.to_login
                                      Sample.clean_termination request 7)
                     Sample.world in
  let edit := Sample.post "alice" [("slug", "acme")] in
  let bound := edit_form Sample.clean_edit ProviderEditView (POST edit) in
  let rerun :=
    respond (dispatch Sample.allow Sample.to_login
                      (generic_views Sample.clean_edit Sample.initial_edit
                                     Sample.persist_nothing
                                     "utilities/obj_edit.html"
                                     Sample.no_generic)
                      ProviderEditView edit
                      (mkKwargs None (Some "acme")))
            Sample.world in
  (is_valid form = false
   /\ fst run = Render "circuits/termination_edit.html"
                       [("form", VForm form);
                        ("obj_type", VStr "Termination");
                        ("cancel_url", VUrl (reverse "circuits:circuit" 7))]
   /\ errors form <> []
   /\ store (snd run) = Sample.db
   /\ trace (snd run) = [Select TCircuit; FormClean "TerminationForm"]
   /\ (forall u, fst run <> Redirect u))
  /\ (In ProviderEditView edit_classes
      /\ is_valid bound = false
      /\ fst rerun = Render "circuits/provider_edit.html"
                            [("form", VForm bound)]
      /\ errors bound <> []
      /\ store (snd rerun) = Sample.db
      /\ trace (snd rerun) = [FormClean "ProviderForm"]
      /\ (forall u, fst rerun <> Redirect u)).
Proof.
  split.
  - split; [reflexivity |].
    exact (proj1 (edit_invalid_rerenders
                    Sample.allow Sample.to_login Sample.clean_termination
                    Sample.no_generic Sample.clean_edit Sample.initial_edit
                    Sample.persist_nothing "utilities/obj_edit.html")
                 (Sample.post "alice" [("circuit", "8")]) 7 Sample.world
                 Sample.link eq_refl eq_refl eq_refl eq_refl).
  - split; [now left |]. split; [reflexivity |].
    exact (proj2 (edit_invalid_rerenders
                    Sample.allow Sample.to_login Sample.clean_termination
                    Sample.no_generic Sample.clean_edit Sample.initial_edit
                    Sample.persist_nothing "utilities/obj_edit.html")
                 ProviderEditView (Sample.post "alice" [("slug", "acme")])
                 (mkKwargs None (Some "acme")) Sample.world
                 "circuits.change_provider"
                 (or_introl eq_refl) eq_refl eq_refl eq_refl eq_refl).
Defined.

(** A valid POST with [_addanother]: the answer is a redirect to the add
    page, not a page with the empty form. *)
Lemma termination_add_add_another_not_rendered :
  let request := Sample.post "alice" [("site", "12"); ("_addanother", "")] in
  let response :=
    fst (respond (termination_add Sample.allow Sample.to_login
                                  Sample.clean_termination request 7)
                 Sample.world) in
  is_valid (TerminationForm Sample.clean_termination (Some (POST request)))
  = true
  /\ response = Redirect (mkUrl "circuits:termination_add" 7)
  /\ ~ rerenders_empty_form response.
Proof.
  split; [reflexivity |]. split; [reflexivity |].
  intros (template & ctx & Hrender & _). discriminate Hrender.
Defined.

Lemma termination_add_valid_redirects_witness :
  let request := Sample.post "alice" [("site", "12"); ("_addanother", "")] in
  let run := respond (termination_add Sample.allow Sample.to_login
                                      Sample.clean_termination request 7)
                     Sample.world in
  is_valid (TerminationForm Sample.clean_termination (Some (POST request)))
  = true
  /\ fst run = Redirect (mkUrl "circuits:termination_add" 7)
  /\ store (snd run)
     = mkStore [Sample.acme] [Sample.link; Sample.spare]
               [Sample.side_a; Sample.side_z;
                mkTermination (Some 3) (Some 7) 12]
               [mkGraph 1 200] 4
  /\ rerenders_empty_form
       (fst (respond (termination_add Sample.allow Sample.to_login
                                      Sample.clean_termination
                                      (Sample.get "alice") 7)
                     (snd run))).
Proof.
  split; [reflexivity |].
  destruct (termination_add_valid_redirects
              Sample.allow Sample.to_login Sample.clean_termination
              (Sample.post "alice" [("site", "12"); ("_addanother", "")])
              7 Sample.world Sample.link eq_refl eq_refl eq_refl eq_refl)
    as (Hresponse & Hstore & Hagain).
  split; [exact Hresponse |]. split; [exact Hstore |].
  exact (Hagain (Sample.get "alice") eq_refl eq_refl).
Defined.


(** Graphs are configured, yet the circuit page neither asks for them nor
    shows a flag for them. *)
Lemma circuit_detail_has_no_graph_flag :
  let run := respond (circuit (Sample.get "alice") 7) Sample.world in
  find_circuit 7 Sample.db = Some Sample.link
  /\ existsb (fun g => graph_type g =? 200) (graphs Sample.db) = true
  /\ fst run
     = Render "circuits/circuit.html" [("circuit", VCircuit Sample.link)]
  /\ ~ displays_graphs (fst run)
  /\ existsb (selects TGraph) (trace (snd run)) = false.
Proof.
  repeat (split; [reflexivity |]). split; [| reflexivity].
  intros (template & ctx & b & Hrender & Hflag).
  injection Hrender as _ <-. discriminate Hflag.
Defined.

Lemma detail_views_found_witness :
  find_provider "acme" Sample.db = Some Sample.acme
  /\ respond (provider 200 (Sample.get "alice") "acme") Sample.world
     = (Render "circuits/provider.html"
               [("provider", VProvider Sample.acme);
                ("circuits", VCircuits [Sample.link; Sample.spare]);
                ("show_graphs", VBool true)],
        mkWorld Sample.db [Select TProvider; Select TGraph; Select TCircuit]
                [])
  /\ find_circuit 7 Sample.db = Some Sample.link
  /\ respond (circuit (Sample.get "alice") 7) Sample.world
     = (Render "circuits/circuit.html" [("circuit", VCircuit Sample.link)],
        mkWorld Sample.db [Select TCircuit] []).
Proof.
  split; [reflexivity |].
  split; [exact (proj1 (detail_views_found 200 (Sample.get "alice")
                                           Sample.world)
                       "acme" Sample.acme eq_refl) |].
  split; [reflexivity |].
  exact (proj2 (detail_views_found 200 (Sample.get "alice") Sample.world)
               7 Sample.link eq_refl).
Defined.

Lemma termination_add_unknown_circuit_witness :
  let request := Sample.post "alice" [("site", "12")] in
  find_circuit 99 Sample.db = None
  /\ respond (termination_add_body Sample.clean_termination request 99)
             Sample.world
     = (Http404, mkWorld Sample.db [Select TCircuit] [])
  /\ respond (termination_add Sample.allow Sample.to_login
                              Sample.clean_termination request 99)
             Sample.world
     = (Http404, mkWorld Sample.db [Select TCircuit] []).
Proof.
  split; [reflexivity |].
  destruct (termination_add_unknown_circuit
              Sample.allow Sample.to_login Sample.clean_termination
              (Sample.post "alice" [("site", "12")]) 99 Sample.world eq_refl)
    as (Hbody & Hroute).
  split; [exact Hbody | exact (Hroute eq_refl)].
Defined.

Lemma list_views_annotate_witness :
  NoDup (map provider_pk (providers Sample.db))
  /\ NoDup (map circuit_pk (circuits Sample.db))
  /\ ProviderListView_queryset Sample.db = [(Sample.acme, 2%nat)]
  /\ CircuitListView_queryset Sample.db
     = [(Sample.link, 2%nat); (Sample.spare, 0%nat)].
Proof.
  assert (Hp : NoDup (map provider_pk (providers Sample.db))).
  { repeat constructor; cbn; intuition discriminate. }
  assert (Hc : NoDup (map circuit_pk (circuits Sample.db))).
  { repeat constructor; cbn; intuition discriminate. }
  split; [exact Hp |]. split; [exact Hc |].
  exact (list_views_annotate_child_counts Sample.db Hp Hc).
Defined.

(** * Further runs on the sample installation *)

Lemma sample_keys_issued : keys_issued Sample.db.
Proof.
  intros t [<- | [<- | []]]; eexists; (split; [reflexivity | cbn; lia]).
Defined.

Lemma sample_circuits_exist : circuits_exist Sample.db.
Proof.
  intros t [<- | [<- | []]]; exists 7, Sample.link; split; reflexivity.
Defined.

Lemma sample_providers_exist : providers_exist Sample.db.
Proof.
  intros c [<- | [<- | []]]; exists Sample.acme; (split; [now left |]);
    reflexivity.
Defined.

Lemma sample_store_ok : store_ok Sample.db.
Proof.
  split; [| split; [exact sample_keys_issued | exact sample_circuits_exist]].
  unfold keys_unique. repeat constructor; cbn; intuition discriminate.
Defined.

Lemma termination_delete_unknown_witness :
  let request := Sample.post "alice" [("confirm", "on")] in
  find_termination 9 Sample.db = None
  /\ respond (termination_delete_body Sample.clean_confirmation
                                      Sample.termination_name
                                      Sample.circuit_name request 9)
             Sample.world
     = (Http404, mkWorld Sample.db [Select TTermination] [])
  /\ respond (termination_delete Sample.allow Sample.to_login
                                 Sample.clean_confirmation
                                 Sample.termination_name Sample.circuit_name
                                 request 9)
             Sample.world
     = (Http404, mkWorld Sample.db [Select TTermination] []).
Proof.
  split; [reflexivity |].
  destruct (termination_delete_unknown
              Sample.allow Sample.to_login Sample.clean_confirmation
              Sample.termination_name Sample.circuit_name
              (Sample.post "alice" [("confirm", "on")]) 9 Sample.world
              eq_refl)
    as (Hbody & Hroute).
  split; [exact Hbody | exact (Hroute eq_refl)].
Defined.

Lemma termination_delete_prompts_witness :
  String.eqb (method (Sample.get "alice")) "POST" = false
  /\ respond (termination_delete Sample.allow Sample.to_login
                                 Sample.clean_confirmation
                                 Sample.termination_name Sample.circuit_name
                                 (Sample.get "alice") 1)
             Sample.world
     = (Render "circuits/termination_delete.html"
               [("termination", VTermination Sample.side_a);
                ("form", VForm (unbound_form "ConfirmationForm"));
                ("cancel_url", VUrl (mkUrl "circuits:circuit" 7))],
        mkWorld Sample.db [Select TTermination; Select TCircuit] []).
Proof.
  split; [reflexivity |].
  exact (termination_delete_prompts
           Sample.allow Sample.to_login Sample.clean_confirmation
           Sample.termination_name Sample.circuit_name
           (Sample.get "alice") 1 Sample.world Sample.side_a 7 Sample.link
           eq_refl eq_refl eq_refl eq_refl eq_refl).
Defined.

(** [alice] posts the delete without ticking the confirmation. *)
Lemma termination_delete_unconfirmed_witness :
  let request := Sample.post "alice" [] in
  let form := ConfirmationForm Sample.clean_confirmation
                               (Some (POST request)) in
  let run := respond (termination_delete
                        Sample.allow Sample.to_login Sample.clean_confirmation
                        Sample.termination_name Sample.circuit_name
                        request 1)
                     Sample.world in
  is_valid form = false
  /\ fst run = Render "circuits/termination_delete.html"
                      [("termination", VTermination Sample.side_a);
                       ("form", VForm form);
                       ("cancel_url", VUrl (mkUrl "circuits:circuit" 7))]
  /\ errors form <> []
  /\ store (snd run) = Sample.db
  /\ messages (snd run) = []
  /\ find_termination 1 (store (snd run)) = Some Sample.side_a.
Proof.
  split; [reflexivity |].
  exact (termination_delete_unconfirmed
           Sample.allow Sample.to_login Sample.clean_confirmation
           Sample.termination_name Sample.circuit_name
           (Sample.post "alice" []) 1 Sample.world Sample.side_a 7
           Sample.link eq_refl eq_refl eq_refl eq_refl eq_refl eq_refl).
Defined.

Lemma termination_add_shows_blank_form_witness :
  String.eqb (method (Sample.get "alice")) "POST" = false
  /\ respond (termination_add Sample.allow Sample.to_login
                              Sample.clean_termination
                              (Sample.get "alice") 7)
             Sample.world
     = (Render "circuits/termination_edit.html"
               [("form", VForm (unbound_form "TerminationForm"));
                ("obj_type", VStr "Termination");
                ("cancel_url", VUrl (mkUrl "circuits:circuit" 7))],
        mkWorld Sample.db [Select TCircuit] []).
Proof.
  split; [reflexivity |].
  exact (termination_add_shows_blank_form
           Sample.allow Sample.to_login Sample.clean_termination
           (Sample.get "alice") 7 Sample.world Sample.link
           eq_refl eq_refl eq_refl).
Defined.

Lemma termination_add_keeps_store_ok_witness :
  let request := Sample.post "alice" [("site", "12")] in
  store_ok Sample.db
  /\ terminations
       (store (snd (respond (termination_add Sample.allow Sample.to_login
                                             Sample.clean_termination
                                             request 7)
                            Sample.world)))
     = [Sample.side_a; Sample.side_z; mkTermination (Some 3) (Some 7) 12]
  /\ store_ok
       (store (snd (respond (termination_add Sample.allow Sample.to_login
                                             Sample.clean_termination
                                             request 7)
                            Sample.world))).
Proof.
  split; [exact sample_store_ok |]. split; [reflexivity |].
  exact (termination_add_keeps_store_ok
           Sample.allow Sample.to_login Sample.clean_termination
           (Sample.post "alice" [("site", "12")]) 7 Sample.world
           sample_store_ok).
Defined.

Lemma termination_delete_keeps_store_ok_witness :
  let request := Sample.post "alice" [("confirm", "on")] in
  let run := respond (termination_delete
                        Sample.allow Sample.to_login Sample.clean_confirmation
                        Sample.termination_name Sample.circuit_name
                        request 1)
                     Sample.world in
  store_ok Sample.db
  /\ terminations (store (snd run)) = [Sample.side_z]
  /\ store_ok (store (snd run)).
Proof.
  split; [exact sample_store_ok |]. split; [reflexivity |].
  exact (termination_delete_keeps_store_ok
           Sample.allow Sample.to_login Sample.clean_confirmation
           Sample.termination_name Sample.circuit_name
           (Sample.post "alice" [("confirm", "on")]) 1 Sample.world
           sample_store_ok).
Defined.

Lemma termination_add_then_lookup_witness :
  let request := Sample.post "alice" [("site", "12"); ("circuit", "8")] in
  let w' := snd (respond (termination_add Sample.allow Sample.to_login
                                          Sample.clean_termination request 7)
                         Sample.world) in
  keys_issued Sample.db
  /\ termination_seq Sample.db = 3
  /\ exists t,
      find_termination 3 (store w') = Some t
      /\ termination_circuit t = Some 7
      /\ termination_site t = 12.
Proof.
  split; [exact sample_keys_issued |]. split; [reflexivity |].
  exact (termination_add_then_lookup
           Sample.allow Sample.to_login Sample.clean_termination
           (Sample.post "alice" [("site", "12"); ("circuit", "8")])
           7 Sample.world Sample.link
           eq_refl eq_refl eq_refl eq_refl sample_keys_issued).
Defined.

Lemma termination_add_then_delete_witness :
  let request := Sample.post "alice" [("site", "12")] in
  let undo := Sample.post "bob" [("confirm", "on")] in
  let w1 := snd (respond (termination_add Sample.allow Sample.to_login
                                          Sample.clean_termination request 7)
                         Sample.world) in
  let run := respond (termination_delete
                        Sample.allow Sample.to_login Sample.clean_confirmation
                        Sample.termination_name Sample.circuit_name undo 3)
                     w1 in
  keys_issued Sample.db
  /\ List.length (terminations (store w1)) = 3%nat
  /\ fst run = Redirect (mkUrl "circuits:circuit" 7)
  /\ terminations (store (snd run)) = [Sample.side_a; Sample.side_z]
  /\ providers (store (snd run)) = [Sample.acme]
  /\ circuits (store (snd run)) = [Sample.link; Sample.spare]
  /\ graphs (store (snd run)) = [mkGraph 1 200].
Proof.
  split; [exact sample_keys_issued |]. split; [reflexivity |].
  exact (termination_add_then_delete
           Sample.allow Sample.to_login Sample.clean_termination
           Sample.clean_confirmation Sample.termination_name
           Sample.circuit_name
           (Sample.post "alice" [("site", "12")])
           (Sample.post "bob" [("confirm", "on")])
           7 Sample.world Sample.link
           eq_refl eq_refl eq_refl eq_refl sample_keys_issued
           eq_refl eq_refl eq_refl).
Defined.

Lemma termination_delete_twice_witness :
  let request := Sample.post "alice" [("confirm", "on")] in
  let w1 := snd (respond (termination_delete
                            Sample.allow Sample.to_login
                            Sample.clean_confirmation
                            Sample.termination_name Sample.circuit_name
                            request 1)
                         Sample.world) in
  find_termination 1 Sample.db = Some Sample.side_a
  /\ find_termination 1 (store w1) = None
  /\ fst (respond (termination_delete
                     Sample.allow Sample.to_login Sample.clean_confirmation
                     Sample.termination_name Sample.circuit_name
                     request 1)
                  w1)
     = Http404.
Proof.
  split; [reflexivity |].
  destruct (termination_delete_twice
              Sample.allow Sample.to_login Sample.clean_confirmation
              Sample.termination_name Sample.circuit_name
              (Sample.post "alice" [("confirm", "on")])
              (Sample.post "alice" [("confirm", "on")])
              1 Sample.world Sample.side_a 7 Sample.link
              eq_refl eq_refl eq_refl eq_refl eq_refl eq_refl eq_refl)
    as (Hgone & Hagain).
  split; [exact Hgone |]. exact (f_equal fst Hagain).
Defined.

Lemma circuit_list_counts_new_termination_witness :
  let request := Sample.post "alice" [("site", "12")] in
  let w' := snd (respond (termination_add Sample.allow Sample.to_login
                                          Sample.clean_termination request 8)
                         Sample.world) in
  NoDup (map circuit_pk (circuits Sample.db))
  /\ CircuitListView_queryset Sample.db
     = [(Sample.link, 2%nat); (Sample.spare, 0%nat)]
  /\ CircuitListView_queryset (store w')
     = [(Sample.link, 2%nat); (Sample.spare, 1%nat)].
Proof.
  assert (Hc : NoDup (map circuit_pk (circuits Sample.db))).
  { repeat constructor; cbn; intuition discriminate. }
  split; [exact Hc |]. split; [reflexivity |].
  exact (circuit_list_counts_new_termination
           Sample.allow Sample.to_login Sample.clean_termination
           (Sample.post "alice" [("site", "12")]) 8 Sample.world Sample.spare
           eq_refl eq_refl eq_refl eq_refl Hc).
Defined.

Lemma provider_detail_agrees_with_list_witness :
  NoDup (map provider_pk (providers Sample.db))
  /\ exists template ctx cs,
      fst (respond (provider 200 (Sample.get "alice") "acme") Sample.world)
      = Render template ctx
      /\ context_get "provider" ctx = Some (VProvider Sample.acme)
      /\ context_get "circuits" ctx = Some (VCircuits cs)
      /\ (forall c, In c cs <-> In c [Sample.link; Sample.spare]
                                /\ circuit_provider c = 1)
      /\ In (Sample.acme, List.length cs)
            (ProviderListView_queryset Sample.db).
Proof.
  assert (Hp : NoDup (map provider_pk (providers Sample.db))).
  { repeat constructor; cbn; intuition discriminate. }
  split; [exact Hp |].
  exact (provider_detail_agrees_with_list
           200 (Sample.get "alice") "acme" Sample.world Sample.acme
           Hp eq_refl).
Defined.

Lemma list_view_counts_add_up_witness :
  NoDup (map provider_pk (providers Sample.db))
  /\ providers_exist Sample.db
  /\ NoDup (map circuit_pk (circuits Sample.db))
  /\ circuits_exist Sample.db
  /\ list_sum (map snd (ProviderListView_queryset Sample.db)) = 2%nat
  /\ list_sum (map snd (CircuitListView_queryset Sample.db)) = 2%nat.
Proof.
  assert (Hp : NoDup (map provider_pk (providers Sample.db))).
  { repeat constructor; cbn; intuition discriminate. }
  assert (Hc : NoDup (map circuit_pk (circuits Sample.db))).
  { repeat constructor; cbn; intuition discriminate. }
  split; [exact Hp |]. split; [exact sample_providers_exist |].
  split; [exact Hc |]. split; [exact sample_circuits_exist |].
  exact (list_view_counts_add_up Sample.db Hp sample_providers_exist
                                 Hc sample_circuits_exist).
Defined.

Lemma circuit_list_counts_deleted_termination_witness :
  let request := Sample.post "alice" [("confirm", "on")] in
  let w' := snd (respond (termination_delete
                            Sample.allow Sample.to_login
                            Sample.clean_confirmation
                            Sample.termination_name Sample.circuit_name
                            request 2)
                         Sample.world) in
  keys_unique Sample.db
  /\ NoDup (map circuit_pk (circuits Sample.db))
  /\ CircuitListView_queryset Sample.db
     = [(Sample.link, 2%nat); (Sample.spare, 0%nat)]
  /\ CircuitListView_queryset (store w')
     = [(Sample.link, 1%nat); (Sample.spare, 0%nat)].
Proof.
  assert (Hc : NoDup (map circuit_pk (circuits Sample.db))).
  { repeat constructor; cbn; intuition discriminate. }
  split; [exact (proj1 sample_store_ok) |]. split; [exact Hc |].
  split; [reflexivity |].
  exact (circuit_list_counts_deleted_termination
           Sample.allow Sample.to_login Sample.clean_confirmation
           Sample.termination_name Sample.circuit_name
           (Sample.post "alice" [("confirm", "on")]) 2 Sample.world
           Sample.side_z 7 Sample.link
           eq_refl eq_refl eq_refl eq_refl eq_refl eq_refl
           (proj1 sample_store_ok) Hc).
Defined.

Lemma termination_delete_never_fails_witness :
  let request := Sample.post "alice" [("confirm", "on")] in
  circuits_exist Sample.db
  /\ fst (respond (termination_delete_body Sample.clean_confirmation
                                           Sample.termination_name
                                           Sample.circuit_name request 1)
                  Sample.world)
     <> ServerError "DoesNotExist".
Proof.
  split; [exact sample_circuits_exist |].
  exact (termination_delete_never_fails
           Sample.clean_confirmation Sample.termination_name
           Sample.circuit_name (Sample.post "alice" [("confirm", "on")])
           1 Sample.world "DoesNotExist" sample_circuits_exist).
Defined.
